(** * Ticket-booking action handlers (actions.py)

    A shallow embedding of the callback logic of [actions.py]: the station
    and payment validators of the booking form, the booking processor and
    the ticket retrieval presenter, together with the in-memory ticket
    store [TICKET_DB] they share.

    Text is modelled by [string]; a character is a code point below 256,
    on which Python's [len], [lower], [strip], [in], [split] and the
    ordering of [str] are the functions defined in [PyStr] below. *)

From Stdlib Require Import ZArith Ascii String.
From stdpp Require Import gmap strings list sorting.

(** ** Python string operations *)

Module PyStr.

Definition code (c : ascii) : nat := nat_of_ascii c.

Definition between (lo hi n : nat) : bool := (lo <=? n)%nat && (n <=? hi)%nat.

(** [str.lower] on one character: A-Z, and the upper-case letters of the
    second half of the table (192-214, 216-222), move up by 32. *)
Definition lower_char (c : ascii) : ascii :=
  let n := code c in
  if between 65 90 n || between 192 214 n || between 216 222 n
  then ascii_of_nat (n + 32)
  else c.

Fixpoint lower (s : string) : string :=
  match s with
  | EmptyString => EmptyString
  | String c s' => String (lower_char c) (lower s')
  end.

(** [str.isspace] on one character. *)
Definition is_space (c : ascii) : bool :=
  let n := code c in
  between 9 13 n || between 28 32 n || (n =? 133)%nat || (n =? 160)%nat.

Fixpoint lstrip (s : string) : string :=
  match s with
  | EmptyString => EmptyString
  | String c s' => if is_space c then lstrip s' else s
  end.

Fixpoint rstrip (s : string) : string :=
  match s with
  | EmptyString => EmptyString
  | String c s' =>
      match rstrip s' with
      | EmptyString => if is_space c then EmptyString else String c EmptyString
      | r => String c r
      end
  end.

(** [s.strip()] *)
Definition strip (s : string) : string := rstrip (lstrip s).

(** [s.startswith(p)] *)
Fixpoint startswith (p s : string) : bool :=
  match p, s with
  | EmptyString, _ => true
  | String _ _, EmptyString => false
  | String a p', String b s' => if decide (a = b) then startswith p' s' else false
  end.

(** [needle in hay] *)
Fixpoint contains (needle hay : string) : bool :=
  startswith needle hay ||
  match hay with
  | EmptyString => false
  | String _ hay' => contains needle hay'
  end.

(** [s.split(sep)] for a separator of one character. *)
Fixpoint split (sep : ascii) (s : string) : list string :=
  match s with
  | EmptyString => [EmptyString]
  | String c s' =>
      if decide (c = sep) then EmptyString :: split sep s'
      else match split sep s' with
           | h :: t => String c h :: t
           | [] => [String c EmptyString]
           end
  end.

(** [sep.join(parts)] *)
Definition join (sep : string) (parts : list string) : string :=
  String.concat sep parts.

Definition digit (n : Z) : string :=
  String (ascii_of_nat (48 + Z.to_nat n)) EmptyString.

Fixpoint digits (fuel : nat) (n : Z) : string :=
  match fuel with
  | O => EmptyString
  | S fuel' =>
      if (n <? 10)%Z then digit n
      else digits fuel' (n / 10) +:+ digit (n mod 10)
  end.

(** [str(n)] for an integer: the binary size of [n] bounds the number of
    decimal digits, so the recursion never runs out. *)
Definition str (n : Z) : string :=
  if (n <? 0)%Z then "-" +:+ digits (S (Z.to_nat (Z.log2 (- n)))) (- n)
  else digits (S (Z.to_nat (Z.log2 n))) n.

(** A value placed in an f-string: [None] prints as the word None. *)
Definition fmt (v : option string) : string :=
  match v with
  | Some s => s
  | None => "None"
  end.

Definition is_digit (c : ascii) : bool := between 48 57 (code c).

Fixpoint isdigit_all (s : string) : bool :=
  match s with
  | EmptyString => true
  | String c s' => is_digit c && isdigit_all s'
  end.

(** The newline character. *)
Definition nl : string := String (ascii_of_nat 10) EmptyString.

End PyStr.

(** ** Station validator *)

Definition is_valid_station (station_name : string) : bool :=
  (3 <? String.length station_name)%nat.


(** ** Data model *)

(** A ticket record: the dictionary appended to the store at commit time.
    [source], [destination] and [payment] hold slot values, which may be
    [None]. *)
Module Ticket.
Record t := mk {
  pnr : string;
  source : option string;
  destination : option string;
  payment : option string;
  booked_on : string;
  status : string
}.
End Ticket.

(** The part of the framework's tracker the handlers read. A slot that is
    unset (its value is [None]) has no entry in [slots]. *)
Record Tracker := {
  sender_id : string;
  slots : gmap string string;
  latest_message : gmap string (gmap string string)
}.

Definition get_slot (tracker : Tracker) (key : string) : option string :=
  slots tracker !! key.

(** [tracker.latest_message.get("intent", {}).get("name")] *)
Definition intent_name (tracker : Tracker) : option string :=
  default ∅ (latest_message tracker !! "intent") !! "name".

Inductive Event :=
  | SlotSet (key : string) (value : option string).

(** What a handler can change: the messages collected by the dispatcher
    and the module-level dictionary [TICKET_DB]. *)
Record World := {
  messages : list string;
  TICKET_DB : gmap string (list Ticket.t)
}.

(** The random generator and the clock of the host process. *)
Record Host := {
  randint : Z -> Z -> Z;
  strftime_now : string
}.

(** ** Handlers as state transformers over [World] *)

Definition Run (A : Type) : Type := World -> A * World.

Definition ret {A} (a : A) : Run A := fun w => (a, w).

Definition bind {A B} (m : Run A) (k : A -> Run B) : Run B :=
  fun w => let (a, w') := m w in k a w'.

Notation "x <- m ;; k" := (bind m (fun x => k))
  (at level 100, m at next level, right associativity).
Notation "m ;;; k" := (bind m (fun _ => k))
  (at level 100, right associativity).

(** [dispatcher.utter_message(text=...)] *)
Definition utter_message (text : string) : Run unit :=
  fun w => (tt, {| messages := messages w ++ [text]; TICKET_DB := TICKET_DB w |}).

(** [TICKET_DB.get(user_id)] *)
Definition db_get (user_id : string) : Run (option (list Ticket.t)) :=
  fun w => (TICKET_DB w !! user_id, w).

Definition db_modify (f : gmap string (list Ticket.t) -> gmap string (list Ticket.t)) : Run unit :=
  fun w => (tt, {| messages := messages w; TICKET_DB := f (TICKET_DB w) |}).

(** [if user_id not in TICKET_DB: TICKET_DB[user_id] = []] *)
Definition db_setdefault_empty (user_id : string) : Run unit :=
  present <- db_get user_id ;;
  match present with
  | Some _ => ret tt
  | None => db_modify (insert user_id [])
  end.

(** [TICKET_DB[user_id].append(ticket)] *)
Definition db_append (user_id : string) (ticket : Ticket.t) : Run unit :=
  db_modify (alter (fun l => l ++ [ticket]) user_id).

(** ** Sorting

    [list.sort(key=..., reverse=True)] is stable and compares keys with
    [<] only; the outcome of a stable sort is determined by its input, so
    it is given here by insertion: an element goes in front of the first
    one whose key is not greater than its own. *)
Section Sort.
Context {A : Type} (key : A -> string).

Fixpoint insert_desc (x : A) (l : list A) : list A :=
  match l with
  | [] => [x]
  | y :: l' =>
      if String.ltb (key x) (key y) then y :: insert_desc x l'
      else x :: y :: l'
  end.

Definition sort_desc (l : list A) : list A := foldr insert_desc [] l.
End Sort.

(** [user_tickets.sort(key=lambda x: x["booked_on"], reverse=True)], where
    [user_tickets] is the list object held by the store under [user_id]:
    the store sees the new order. *)
Definition db_sort_in_place (user_id : string) : Run unit :=
  db_modify (alter (sort_desc Ticket.booked_on) user_id).

(** ** Form validation *)

Definition validate_source (slot_value : string) (tracker : Tracker)
  : Run (gmap string (option string)) :=
  if is_valid_station slot_value then
    ret {[ "source" := Some slot_value ]}
  else
    utter_message ("I don't recognize '" +:+ slot_value +:+
      "' as a valid source station. Could you please specify a major station name?") ;;;
    ret {[ "source" := None ]}.

(** [source and source.lower() == slot_value.lower()] *)
Definition same_station (source : option string) (slot_value : string) : bool :=
  match source with
  | None => false
  | Some EmptyString => false
  | Some s => bool_decide (PyStr.lower s = PyStr.lower slot_value)
  end.

Definition duplicate_route_message : string :=
  "Source and Destination stations cannot be the same. Please specify a different destination.".

Definition validate_destination (slot_value : string) (tracker : Tracker)
  : Run (gmap string (option string)) :=
  if is_valid_station slot_value then
    let source := get_slot tracker "source" in
    if same_station source slot_value then
      utter_message duplicate_route_message ;;;
      ret {[ "destination" := None ]}
    else
      ret {[ "destination" := Some slot_value ]}
  else
    utter_message ("I don't recognize '" +:+ slot_value +:+
      "' as a valid destination station. Please try another name.") ;;;
    ret {[ "destination" := None ]}.

Definition supported_methods : list string :=
  ["upi"; "card"; "credit card"; "debit card"; "net banking"; "google pay"].

(** [any(method in slot_value.lower() for method in supported_methods)] *)
Definition is_valid_payment (slot_value : string) : bool :=
  existsb (fun method => PyStr.contains method (PyStr.lower slot_value)) supported_methods.

Definition unsupported_payment_message : string :=
  "I'm sorry, we only support **UPI, Credit/Debit Card, or Net Banking**. Please choose one of these.".

Definition validate_payment_method (slot_value : string) (tracker : Tracker)
  : Run (gmap string (option string)) :=
  if is_valid_payment slot_value then
    ret {[ "payment_method" := Some slot_value ]}
  else
    utter_message unsupported_payment_message ;;;
    ret {[ "payment_method" := None ]}.

(** ** Booking confirmation presenter *)

Definition TICKET_PRICE : Z := 120.

Definition confirmation_message (source destination payment_method : option string) : string :=
  "Please confirm your booking details:" +:+ PyStr.nl +:+ PyStr.nl +:+
  "**Route:** " +:+ PyStr.fmt source +:+ " to " +:+ PyStr.fmt destination +:+ PyStr.nl +:+
  "**Amount:** Rs " +:+ PyStr.str TICKET_PRICE +:+ PyStr.nl +:+
  "**Payment Method:** " +:+ PyStr.fmt payment_method +:+ PyStr.nl +:+ PyStr.nl +:+
  "Do you want to **confirm and proceed** with the payment?".

Definition ActionConfirmPayment_run (tracker : Tracker) : Run (list Event) :=
  let source := get_slot tracker "source" in
  let destination := get_slot tracker "destination" in
  let payment_method := get_slot tracker "payment_method" in
  let message := confirmation_message source destination payment_method in
  utter_message message ;;;
  ret [SlotSet "payment_confirmed" None].

(** ** Booking processor *)

Definition reset_slots : list Event :=
  [ SlotSet "source" None;
    SlotSet "destination" None;
    SlotSet "payment_method" None;
    SlotSet "payment_confirmed" None ].

Definition cancelled_message : string :=
  "Ticket booking cancelled. Is there anything else I can help you with?".

Definition success_message (pnr_number : string) (source destination payment_method : option string)
  : string :=
  "**Booking Successful!** Your reserved ticket is confirmed." +:+ PyStr.nl +:+ PyStr.nl +:+
  "**PNR:** " +:+ pnr_number +:+ PyStr.nl +:+
  "**Route:** " +:+ PyStr.fmt source +:+ " to " +:+ PyStr.fmt destination +:+ PyStr.nl +:+
  "**Payment Method:** " +:+ PyStr.fmt payment_method +:+ PyStr.nl.

Definition ActionProcessBooking_run (host : Host) (tracker : Tracker) : Run (list Event) :=
  if decide (intent_name tracker = Some "affirm") then
    let source := get_slot tracker "source" in
    let destination := get_slot tracker "destination" in
    let payment_method := get_slot tracker "payment_method" in
    let pnr_number := PyStr.str (randint host 1000000000 9999999999) in
    let booking_time := strftime_now host in
    let user_id := sender_id tracker in
    db_setdefault_empty user_id ;;;
    db_append user_id
      {| Ticket.pnr := pnr_number;
         Ticket.source := source;
         Ticket.destination := destination;
         Ticket.payment := payment_method;
         Ticket.booked_on := booking_time;
         Ticket.status := "CONFIRMED" |} ;;;
    utter_message (success_message pnr_number source destination payment_method) ;;;
    ret reset_slots
  else
    utter_message cancelled_message ;;;
    ret reset_slots.

(** ** Ticket retrieval presenter *)

Definition no_tickets_message : string :=
  "You currently have no unreserved tickets booked with me.".

Definition tickets_header : string :=
  "Here are your recent unreserved ticket bookings:".

(** [ticket['booked_on'].split(' ')[0]]; [split] never returns an empty
    list, so the index is always in range. *)
Definition date_part (stamp : string) : string :=
  default EmptyString (head (PyStr.split " "%char stamp)).

(** The block of the ticket at index [i] of the enumeration. *)
Definition ticket_block (i : nat) (ticket : Ticket.t) : string :=
  PyStr.nl +:+ "--- Ticket " +:+ PyStr.str (Z.of_nat i + 1) +:+ " ---" +:+ PyStr.nl +:+
  "**PNR:** " +:+ Ticket.pnr ticket +:+ PyStr.nl +:+
  "**Route:** " +:+ PyStr.fmt (Ticket.source ticket) +:+ " to " +:+
    PyStr.fmt (Ticket.destination ticket) +:+ PyStr.nl +:+
  "**Booked On:** " +:+ date_part (Ticket.booked_on ticket).

Definition ActionRetrieveTickets_run (tracker : Tracker) : Run (list Event) :=
  let user_id := sender_id tracker in
  stored <- db_get user_id ;;
  match default [] stored with
  | [] =>
      utter_message no_tickets_message ;;;
      ret []
  | _ :: _ =>
      db_sort_in_place user_id ;;;
      stored' <- db_get user_id ;;
      let user_tickets := default [] stored' in
      let message_parts := tickets_header :: imap ticket_block user_tickets in
      let final_message := PyStr.join PyStr.nl message_parts in
      utter_message final_message ;;;
      ret []
  end.

(** ** Vocabulary of the statements *)

(** [needle] occurs in [hay] as a run of consecutive characters. *)
Definition occurs_in (needle hay : string) : Prop :=
  exists before after, hay = before +:+ needle +:+ after.

(** The text in front of the first blank of [s]; all of [s] when it has
    none. *)
Fixpoint until_space (s : string) : string :=
  match s with
  | EmptyString => EmptyString
  | String c s' => if decide (c = " "%char) then EmptyString else String c (until_space s')
  end.

(** The key of [a] is not below the key of [b]: the order between
    neighbours of a list in descending key order. *)
Definition key_desc {A : Type} (key : A -> string) (a b : A) : Prop :=
  String.le (key b) (key a).

(** [a] is booked no earlier than [b]: most recent first. *)
Definition booked_desc : relation Ticket.t := key_desc Ticket.booked_on.

(** A ticket block as the retrieval message shows it, under the number
    [number]: PNR, route, and the booking stamp cut at its first blank. *)
Definition rendered_block (number : string) (ticket : Ticket.t) : string :=
  PyStr.nl +:+ "--- Ticket " +:+ number +:+ " ---" +:+ PyStr.nl +:+
  "**PNR:** " +:+ Ticket.pnr ticket +:+ PyStr.nl +:+
  "**Route:** " +:+ PyStr.fmt (Ticket.source ticket) +:+ " to " +:+
    PyStr.fmt (Ticket.destination ticket) +:+ PyStr.nl +:+
  "**Booked On:** " +:+ until_space (Ticket.booked_on ticket).

(** The duplicate-route condition: a source slot that is set, not empty,
    and equal to the candidate once both are lower-cased. *)
Definition duplicate_route (source : option string) (candidate : string) : Prop :=
  exists s, source = Some s /\ s <> EmptyString /\ PyStr.lower s = PyStr.lower candidate.

(** The record a confirmed booking appends: the dictionary literal of
    [ActionProcessBooking.run]. *)
Definition committed_ticket (host : Host) (tracker : Tracker) : Ticket.t :=
  {| Ticket.pnr := PyStr.str (randint host 1000000000 9999999999);
     Ticket.source := get_slot tracker "source";
     Ticket.destination := get_slot tracker "destination";
     Ticket.payment := get_slot tracker "payment_method";
     Ticket.booked_on := strftime_now host;
     Ticket.status := "CONFIRMED" |}.

(** One invocation of a handler of this file by the action server. *)
Inductive Call :=
  | ValidateSource (slot_value : string)
  | ValidateDestination (slot_value : string)
  | ValidatePaymentMethod (slot_value : string)
  | ConfirmPayment
  | ProcessBooking (host : Host)
  | RetrieveTickets.

(** The world a call leaves behind. *)
Definition perform (call : Call) (tracker : Tracker) (w : World) : World :=
  match call with
  | ValidateSource v => (validate_source v tracker w).2
  | ValidateDestination v => (validate_destination v tracker w).2
  | ValidatePaymentMethod v => (validate_payment_method v tracker w).2
  | ConfirmPayment => (ActionConfirmPayment_run tracker w).2
  | ProcessBooking host => (ActionProcessBooking_run host tracker w).2
  | RetrieveTickets => (ActionRetrieveTickets_run tracker w).2
  end.

(** A run of the process: calls in order, each with the tracker it is
    given. *)
Fixpoint session (calls : list (Call * Tracker)) (w : World) : World :=
  match calls with
  | [] => w
  | (call, tracker) :: rest => session rest (perform call tracker w)
  end.

(** The world of a freshly started process: [TICKET_DB = {}]. *)
Definition initial_world : World := {| messages := []; TICKET_DB := ∅ |}.

(** The tickets a user holds: [TICKET_DB.get(user_id, [])]. *)
Definition tickets_of (w : World) (user_id : string) : list Ticket.t :=
  default [] (TICKET_DB w !! user_id).

(** [random.randint(a, b)] returns a value between its bounds. *)
Definition host_in_range (host : Host) : Prop :=
  (1000000000 <= randint host 1000000000 9999999999 <= 9999999999)%Z.

(** The hosts of the booking calls of a session all keep to the range. *)
Definition call_in_range (c : Call * Tracker) : Prop :=
  match c.1 with
  | ProcessBooking host => host_in_range host
  | _ => True
  end.

(** The call is a confirmed booking of [user_id]. *)
Definition books_for (user_id : string) (c : Call * Tracker) : bool :=
  match c.1 with
  | ProcessBooking _ =>
      bool_decide (intent_name c.2 = Some "affirm" /\ sender_id c.2 = user_id)
  | _ => false
  end.

(** The number of confirmed bookings of [user_id] among [calls]. *)
Definition bookings_by (user_id : string) (calls : list (Call * Tracker)) : nat :=
  length (List.filter (books_for user_id) calls).

(** A PNR as the processor is meant to issue it: ten digit characters. *)
Definition pnr_shape (ticket : Ticket.t) : Prop :=
  String.length (Ticket.pnr ticket) = 10 /\ PyStr.isdigit_all (Ticket.pnr ticket) = true.

(** The number a string of decimal digits denotes, read from the left
    starting from [acc]. *)
Fixpoint decimal_value_from (acc : Z) (s : string) : Z :=
  match s with
  | EmptyString => acc
  | String c s' => decimal_value_from (10 * acc + (Z.of_nat (PyStr.code c) - 48)) s'
  end.

Definition decimal_value (s : string) : Z := decimal_value_from 0 s.

(** The lines of a ticket block below its numbered heading. *)
Definition block_body (ticket : Ticket.t) : string :=
  "**PNR:** " +:+ Ticket.pnr ticket +:+ PyStr.nl +:+
  "**Route:** " +:+ PyStr.fmt (Ticket.source ticket) +:+ " to " +:+
    PyStr.fmt (Ticket.destination ticket) +:+ PyStr.nl +:+
  "**Booked On:** " +:+ date_part (Ticket.booked_on ticket).

(** * Properties *)

Example station_NYC : is_valid_station "NYC" = false.
Proof. reflexivity. Qed.

Example station_Paris : is_valid_station "Paris" = true.
Proof. reflexivity. Qed.

Example strip_padded : PyStr.strip "  NY " = "NY".
Proof. reflexivity. Qed.

Example lower_mixed : PyStr.lower "DeBit Card" = "debit card".
Proof. reflexivity. Qed.

Example split_stamp : PyStr.split " "%char "2024-01-02 10:11:12" = ["2024-01-02"; "10:11:12"].
Proof. reflexivity. Qed.

Example str_number : PyStr.str 1234567890 = "1234567890".
Proof. reflexivity. Qed.

Example str_small : PyStr.str 0 = "0" /\ PyStr.str 10 = "10" /\ PyStr.str (-7) = "-7".
Proof. repeat split. Qed.

(** ** Facts about the string operations *)

Section StringFacts.


Lemma append_cons (c : ascii) (s t : string) :
  String c s +:+ t = String c (s +:+ t).
Proof. reflexivity. Qed.

Lemma length_append (s t : string) :
  String.length (s +:+ t) = String.length s + String.length t.
Proof.
  induction s as [|c s IH]; [done |].
  rewrite append_cons. simpl. by rewrite IH.
Qed.

Lemma append_assoc (s t u : string) : (s +:+ t) +:+ u = s +:+ (t +:+ u).
Proof.
  induction s as [|c s IH]; [done |].
  rewrite !append_cons. by f_equal.
Qed.

Lemma lstrip_length (s : string) :
  String.length (PyStr.lstrip s) <= String.length s.
Proof.
  induction s as [|c s IH]; simpl; [done |].
  destruct (PyStr.is_space c); simpl; lia.
Qed.

Lemma rstrip_length (s : string) :
  String.length (PyStr.rstrip s) <= String.length s.
Proof.
  induction s as [|c s IH]; simpl; [done |].
  destruct (PyStr.rstrip s) as [|d r]; simpl in *.
  - destruct (PyStr.is_space c); simpl; lia.
  - lia.
Qed.

Lemma strip_length (s : string) :
  String.length (PyStr.strip s) <= String.length s.
Proof.
  unfold PyStr.strip.
  etrans; [apply rstrip_length | apply lstrip_length].
Qed.

Lemma lower_append (s t : string) :
  PyStr.lower (s +:+ t) = PyStr.lower s +:+ PyStr.lower t.
Proof.
  induction s as [|c s IH]; [done |].
  rewrite append_cons. simpl. rewrite append_cons. by f_equal.
Qed.

(** [startswith] decides being a prefix. *)
Lemma startswith_spec (p s : string) :
  PyStr.startswith p s = true <-> exists rest, s = p +:+ rest.
Proof.
  revert s. induction p as [|a p IH]; intros s.
  - split; [intros _; by exists s | done].
  - destruct s as [|b s]; simpl.
    + split; [done | intros [rest H]; discriminate].
    + destruct (decide (a = b)) as [->|Hne].
      * rewrite IH. split; intros [rest H]; exists rest;
          rewrite append_cons in *; congruence.
      * split; [done | intros [rest H]; rewrite append_cons in H; congruence].
Qed.

(** [contains] decides [occurs_in]. *)
Lemma contains_spec (needle hay : string) :
  PyStr.contains needle hay = true <-> occurs_in needle hay.
Proof.
  unfold occurs_in. induction hay as [|c hay IH].
  - cbn [PyStr.contains]. rewrite orb_false_r, startswith_spec. split.
    + intros [rest H]. by exists EmptyString, rest.
    + intros [[|b before] [after H]]; [by exists after | done].
  - cbn [PyStr.contains]. rewrite orb_true_iff, IH, startswith_spec. split.
    + intros [[rest H] | (before & after & H)].
      * by exists EmptyString, rest.
      * exists (String c before), after. rewrite append_cons. by rewrite H.
    + intros [[|b before] [after H]].
      * left. by exists after.
      * right. exists before, after. rewrite append_cons in H. congruence.
Qed.

End StringFacts.

(** ** Station validator *)

(** C9. On the raw input, names of length at most 3 are rejected and names
    of length above 3 are accepted: NYC is rejected, Paris is accepted. *)
Theorem is_valid_station_raw_length :
  (forall s : string, String.length s <= 3 -> is_valid_station s = false) /\
  (forall s : string, 3 < String.length s -> is_valid_station s = true) /\
  is_valid_station "NYC" = false /\
  is_valid_station "Paris" = true.
Proof.
  unfold is_valid_station. repeat split.
  - intros s H. apply Nat.ltb_ge. exact H.
  - intros s H. apply Nat.ltb_lt. exact H.
Qed.

(** C1, as stated, fails: a name padded with blanks to raw length 5 is
    accepted although only 2 characters remain once it is trimmed. *)
Lemma is_valid_station_padded_accepted :
  is_valid_station "  NY " = true /\
  PyStr.strip "  NY " = "NY" /\
  String.length (PyStr.strip "  NY ") <= 3.
Proof. repeat split. simpl. lia. Qed.

(** C1, amended. [is_valid_station] returns true exactly when the length of
    the input as given, blanks included, exceeds 3; an input whose trimmed
    length exceeds 3 is therefore accepted as well. *)
Theorem is_valid_station_iff_untrimmed (s : string) :
  (is_valid_station s = true <-> 3 < String.length s) /\
  (3 < String.length (PyStr.strip s) -> is_valid_station s = true).
Proof.
  unfold is_valid_station. split.
  - apply Nat.ltb_lt.
  - intros H. apply Nat.ltb_lt. pose proof (strip_length s). lia.
Qed.

(** ** Payment method validator *)

Lemma is_valid_payment_iff (s : string) :
  is_valid_payment s = true <->
  exists keyword, keyword ∈ supported_methods /\ occurs_in keyword (PyStr.lower s).
Proof.
  unfold is_valid_payment. rewrite existsb_exists. split.
  - intros (k & Hin & Hc). exists k. split; [by apply list_elem_of_In |].
    by apply contains_spec.
  - intros (k & Hin & Hc). exists k. split; [by apply list_elem_of_In |].
    by apply contains_spec.
Qed.

(** C4. The payment text is accepted exactly when its lower-cased form
    contains one of the six keywords; a text containing debit card in any
    mix of cases is accepted, bitcoin is rejected, and the handler keeps the
    value on acceptance and clears it with the fixed message otherwise. *)
Theorem is_valid_payment_keywords :
  (forall s : string,
      is_valid_payment s = true <->
      exists keyword,
        keyword ∈ ["upi"; "card"; "credit card"; "debit card"; "net banking"; "google pay"] /\
        occurs_in keyword (PyStr.lower s)) /\
  (forall before mid after : string,
      PyStr.lower mid = "debit card" ->
      is_valid_payment (before +:+ mid +:+ after) = true) /\
  is_valid_payment "bitcoin" = false /\
  (forall (s : string) (tracker : Tracker) (w : World),
      validate_payment_method s tracker w =
      if is_valid_payment s
      then ({[ "payment_method" := Some s ]}, w)
      else ({[ "payment_method" := None ]},
            {| messages := messages w ++ [unsupported_payment_message];
               TICKET_DB := TICKET_DB w |})).
Proof.
  split; [exact is_valid_payment_iff |].
  split; [| split; [reflexivity |]].
  - intros before mid after Hmid. apply is_valid_payment_iff.
    exists "debit card". split.
    + unfold supported_methods. set_solver.
    + exists (PyStr.lower before), (PyStr.lower after).
      by rewrite !lower_append, Hmid.
  - intros s tracker w. unfold validate_payment_method.
    by destruct (is_valid_payment s).
Qed.

(** ** Destination cross-validation *)

Lemma same_station_spec (source : option string) (candidate : string) :
  same_station source candidate = true <-> duplicate_route source candidate.
Proof.
  unfold same_station, duplicate_route. split.
  - destruct source as [[|c s]|]; [done | | done].
    intros H%bool_decide_eq_true. by exists (String c s).
  - intros (s & -> & Hne & Heq). destruct s as [|c s]; [done |].
    by apply bool_decide_eq_true.
Qed.

(** C5. A candidate destination that passes station validation is rejected
    (the slot is cleared and the corrective message is sent) exactly when
    the source slot is set, non-empty and equal to it up to case; otherwise
    it is returned unchanged and nothing is sent. *)
Theorem validate_destination_duplicate
    (slot_value : string) (tracker : Tracker) (w : World)
    (Hvalid : is_valid_station slot_value = true) :
  let source := get_slot tracker "source" in
  let result := validate_destination slot_value tracker w in
  (result.1 !! "destination" = Some None <-> duplicate_route source slot_value) /\
  (duplicate_route source slot_value ->
     result = ({[ "destination" := None ]},
               {| messages := messages w ++
                    ["Source and Destination stations cannot be the same. Please specify a different destination."];
                  TICKET_DB := TICKET_DB w |})) /\
  (~ duplicate_route source slot_value ->
     result = ({[ "destination" := Some slot_value ]}, w)).
Proof.
  intros source result. subst result.
  unfold validate_destination. rewrite Hvalid. fold source.
  rewrite <- same_station_spec.
  destruct (same_station source slot_value) eqn:E; cbn.
  - repeat split; done.
  - repeat split; done.
Qed.

Lemma validate_destination_duplicate_witness :
  let tracker := {| sender_id := "u"; slots := {[ "source" := "London" ]};
                    latest_message := ∅ |} in
  let w := {| messages := []; TICKET_DB := ∅ |} in
  (validate_destination "LONDON" tracker w).1 !! "destination" = Some None /\
  (validate_destination "Berlin" tracker w).1 !! "destination" = Some (Some "Berlin").
Proof.
  intros tracker w. split.
  - apply (validate_destination_duplicate "LONDON" tracker w eq_refl).
    exists "London". repeat split; done.
  - rewrite (proj2 (proj2 (validate_destination_duplicate "Berlin" tracker w eq_refl))).
    + reflexivity.
    + intros (s & Hs & _ & Hl). vm_compute in Hs. injection Hs as <-. discriminate Hl.
Defined.

(** ** Decimal rendering of the PNR *)

Section Decimal.
Local Open Scope Z_scope.

Lemma isdigit_all_append (s t : string) :
  PyStr.isdigit_all (s +:+ t) = PyStr.isdigit_all s && PyStr.isdigit_all t.
Proof.
  induction s as [|c s IH]; [done |].
  rewrite append_cons. simpl. by rewrite IH, andb_assoc.
Qed.

Lemma digit_shape (n : Z) :
  0 <= n < 10 ->
  String.length (PyStr.digit n) = 1%nat /\ PyStr.isdigit_all (PyStr.digit n) = true.
Proof.
  intros H. split; [reflexivity |].
  unfold PyStr.digit. cbn [PyStr.isdigit_all]. rewrite andb_true_r.
  assert (Z.to_nat n < 10)%nat as Hk by lia.
  revert Hk. generalize (Z.to_nat n) as k. intros k Hk.
  do 10 (destruct k as [|k]; [reflexivity |]). lia.
Qed.

(** A number with [k + 1] decimal digits is rendered by [k + 1] digit
    characters, given more than [k] units of fuel. *)
Lemma digits_shape (k : nat) :
  forall (fuel : nat) (n : Z),
    (k < fuel)%nat ->
    10 ^ Z.of_nat k <= n < 10 ^ Z.of_nat (S k) ->
    String.length (PyStr.digits fuel n) = S k /\
    PyStr.isdigit_all (PyStr.digits fuel n) = true.
Proof.
  induction k as [|k IH]; intros fuel n Hfuel Hn.
  - destruct fuel as [|fuel]; [lia |]. change (10 ^ Z.of_nat 0) with 1 in Hn.
    change (10 ^ Z.of_nat 1) with 10 in Hn. simpl.
    destruct (Z.ltb_spec n 10); [| lia]. apply digit_shape. lia.
  - destruct fuel as [|fuel]; [lia |].
    rewrite !Nat2Z.inj_succ, !Z.pow_succ_r in Hn by lia.
    assert (0 < 10 ^ Z.of_nat k) by (apply Z.pow_pos_nonneg; lia).
    simpl. destruct (Z.ltb_spec n 10); [lia |].
    destruct (IH fuel (n / 10)) as [Hlen Hdig]; [lia | |].
    { rewrite Nat2Z.inj_succ, Z.pow_succ_r by lia. split.
      - apply Z.div_le_lower_bound; lia.
      - apply Z.div_lt_upper_bound; lia. }
    destruct (digit_shape (n mod 10)) as [Hlen' Hdig'].
    { apply Z.mod_pos_bound. lia. }
    rewrite length_append, isdigit_all_append, Hlen, Hdig, Hlen', Hdig'.
    split; [lia | done].
Qed.

(** Every integer of the PNR range prints as ten digit characters. *)
Lemma str_pnr_shape (n : Z) :
  1000000000 <= n <= 9999999999 ->
  String.length (PyStr.str n) = 10%nat /\ PyStr.isdigit_all (PyStr.str n) = true.
Proof.
  intros Hn. unfold PyStr.str.
  destruct (Z.ltb_spec n 0); [lia |].
  apply (digits_shape 9).
  - assert (Z.log2 1000000000 <= Z.log2 n) as Hlog by (apply Z.log2_le_mono; lia).
    change (Z.log2 1000000000) with 29 in Hlog. lia.
  - change (10 ^ Z.of_nat 9) with 1000000000.
    change (10 ^ Z.of_nat 10) with 10000000000. lia.
Qed.

End Decimal.

(** ** Booking processor *)

Section Booking.
Implicit Types (db : gmap string (list Ticket.t)) (user_id : string).

(** Creating the user's entry when it is missing and then appending is
    one write of the extended sequence. *)
Lemma setdefault_append db user_id (ticket : Ticket.t) :
  alter (fun l => l ++ [ticket]) user_id
    (match db !! user_id with Some _ => db | None => <[user_id := []]> db end)
  = <[user_id := default [] (db !! user_id) ++ [ticket]]> db.
Proof.
  apply map_eq. intros k. rewrite lookup_alter, lookup_insert.
  destruct (decide (user_id = k)) as [<-|Hne].
  - destruct (db !! user_id) as [l|] eqn:E; cbn.
    + by rewrite E.
    + by rewrite lookup_insert_eq.
  - destruct (db !! user_id); [done |]. by rewrite lookup_insert_ne.
Qed.

Lemma process_booking_affirm (host : Host) (tracker : Tracker) (w : World) :
  intent_name tracker = Some "affirm" ->
  ActionProcessBooking_run host tracker w =
  (reset_slots,
   {| messages := messages w ++
        [success_message (Ticket.pnr (committed_ticket host tracker))
           (get_slot tracker "source") (get_slot tracker "destination")
           (get_slot tracker "payment_method")];
      TICKET_DB := <[sender_id tracker :=
                      default [] (TICKET_DB w !! sender_id tracker) ++
                      [committed_ticket host tracker]]> (TICKET_DB w) |}).
Proof.
  intros Hi. unfold ActionProcessBooking_run.
  destruct (decide (intent_name tracker = Some "affirm")); [| done].
  rewrite <- setdefault_append.
  unfold bind, db_setdefault_empty, db_append, db_modify, db_get, bind,
    utter_message, ret. cbn.
  destruct (TICKET_DB w !! sender_id tracker); reflexivity.
Qed.

Lemma process_booking_other (host : Host) (tracker : Tracker) (w : World) :
  intent_name tracker <> Some "affirm" ->
  ActionProcessBooking_run host tracker w =
  (reset_slots,
   {| messages := messages w ++ [cancelled_message]; TICKET_DB := TICKET_DB w |}).
Proof.
  intros Hi. unfold ActionProcessBooking_run.
  destruct (decide (intent_name tracker = Some "affirm")); done.
Qed.

End Booking.

(** C2. A confirmed booking with the three slots set appends exactly one
    record to the invoking user's sequence: status CONFIRMED, a PNR of ten
    digit characters, source, destination and payment taken from the slots.
    The returned events clear the four transient slots and no other user's
    sequence changes. *)
Theorem process_booking_confirmed
    (host : Host) (tracker : Tracker) (w : World) (src dst pay : string)
    (Hintent : intent_name tracker = Some "affirm")
    (Hsrc : get_slot tracker "source" = Some src)
    (Hdst : get_slot tracker "destination" = Some dst)
    (Hpay : get_slot tracker "payment_method" = Some pay)
    (Hrand : (1000000000 <= randint host 1000000000 9999999999 <= 9999999999)%Z) :
  let result := ActionProcessBooking_run host tracker w in
  let user_id := sender_id tracker in
  exists ticket : Ticket.t,
    TICKET_DB result.2 !! user_id =
      Some (default [] (TICKET_DB w !! user_id) ++ [ticket]) /\
    Ticket.status ticket = "CONFIRMED" /\
    String.length (Ticket.pnr ticket) = 10 /\
    PyStr.isdigit_all (Ticket.pnr ticket) = true /\
    Ticket.source ticket = Some src /\
    Ticket.destination ticket = Some dst /\
    Ticket.payment ticket = Some pay /\
    result.1 = [ SlotSet "source" None; SlotSet "destination" None;
                 SlotSet "payment_method" None; SlotSet "payment_confirmed" None ] /\
    (forall other : string,
        other <> user_id -> TICKET_DB result.2 !! other = TICKET_DB w !! other).
Proof.
  intros result user_id. subst result user_id.
  rewrite (process_booking_affirm host tracker w Hintent). cbn [fst snd TICKET_DB].
  exists (committed_ticket host tracker).
  destruct (str_pnr_shape _ Hrand) as [Hlen Hdig].
  repeat split; try done.
  - by rewrite lookup_insert_eq.
  - intros other Hne. by rewrite lookup_insert_ne.
Qed.

Lemma process_booking_confirmed_witness :
  let host := {| randint := fun lo hi => (lo + 234567890)%Z;
                 strftime_now := "2024-05-06 07:08:09" |} in
  let tracker := {| sender_id := "alice";
                    slots := {[ "source" := "Paris"; "destination" := "Berlin";
                                "payment_method" := "UPI" ]};
                    latest_message := {[ "intent" := {[ "name" := "affirm" ]} ]} |} in
  let w := {| messages := []; TICKET_DB := ∅ |} in
  exists ticket : Ticket.t,
    TICKET_DB (ActionProcessBooking_run host tracker w).2 !! "alice" = Some ([] ++ [ticket]) /\
    Ticket.status ticket = "CONFIRMED" /\
    String.length (Ticket.pnr ticket) = 10.
Proof.
  intros host tracker w.
  destruct (process_booking_confirmed host tracker w "Paris" "Berlin" "UPI")
    as (ticket & Hdb & Hst & Hlen & _); try reflexivity.
  - vm_compute. split; discriminate.
  - exists ticket. repeat split; assumption.
Defined.

(** C3. A declined booking leaves the ticket store as it was, for every
    user, and its events clear the four transient slots. *)
Theorem process_booking_declined
    (host : Host) (tracker : Tracker) (w : World)
    (Hintent : intent_name tracker <> Some "affirm") :
  let result := ActionProcessBooking_run host tracker w in
  TICKET_DB result.2 = TICKET_DB w /\
  result.1 = [ SlotSet "source" None; SlotSet "destination" None;
               SlotSet "payment_method" None; SlotSet "payment_confirmed" None ] /\
  messages result.2 = messages w ++
    ["Ticket booking cancelled. Is there anything else I can help you with?"].
Proof.
  intros result. subst result.
  by rewrite (process_booking_other host tracker w Hintent).
Qed.

Lemma process_booking_declined_witness :
  let host := {| randint := fun lo hi => lo; strftime_now := "2024-05-06 07:08:09" |} in
  let tracker := {| sender_id := "alice";
                    slots := {[ "source" := "Paris"; "destination" := "Berlin" ]};
                    latest_message := {[ "intent" := {[ "name" := "deny" ]} ]} |} in
  let w := {| messages := []; TICKET_DB := {[ "bob" := [] ]} |} in
  TICKET_DB (ActionProcessBooking_run host tracker w).2 = {[ "bob" := [] ]}.
Proof.
  intros host tracker w.
  apply (process_booking_declined host tracker w). vm_compute. discriminate.
Defined.

(** C10. The booking processor has two outcomes and no third: when the
    intent name is exactly affirm it commits one record for the sender;
    for every other value, a missing intent included, it sends the
    cancellation message and leaves the store alone. Both outcomes clear
    the four transient slots. *)
Theorem process_booking_dichotomy (host : Host) (tracker : Tracker) (w : World) :
  let result := ActionProcessBooking_run host tracker w in
  result.1 = [ SlotSet "source" None; SlotSet "destination" None;
               SlotSet "payment_method" None; SlotSet "payment_confirmed" None ] /\
  ((intent_name tracker = Some "affirm" /\
    TICKET_DB result.2 =
      <[sender_id tracker :=
          default [] (TICKET_DB w !! sender_id tracker) ++ [committed_ticket host tracker]]>
        (TICKET_DB w))
   \/
   (intent_name tracker <> Some "affirm" /\
    TICKET_DB result.2 = TICKET_DB w /\
    messages result.2 = messages w ++
      ["Ticket booking cancelled. Is there anything else I can help you with?"])).
Proof.
  intros result. subst result.
  destruct (decide (intent_name tracker = Some "affirm")) as [Hi|Hi].
  - rewrite (process_booking_affirm host tracker w Hi). split; [done |]. by left.
  - rewrite (process_booking_other host tracker w Hi). split; [done |]. by right.
Qed.

(** A tracker without an intent, and one whose intent differs from affirm
    only by case, both take the cancellation branch. *)
Example process_booking_not_exactly_affirm :
  let host := {| randint := fun lo hi => lo; strftime_now := "2024-05-06 07:08:09" |} in
  let w := {| messages := []; TICKET_DB := ∅ |} in
  let missing := {| sender_id := "u"; slots := ∅; latest_message := ∅ |} in
  let shouted := {| sender_id := "u"; slots := ∅;
                    latest_message := {[ "intent" := {[ "name" := "Affirm" ]} ]} |} in
  ActionProcessBooking_run host missing w = (reset_slots, {| messages := [cancelled_message]; TICKET_DB := ∅ |}) /\
  ActionProcessBooking_run host shouted w = (reset_slots, {| messages := [cancelled_message]; TICKET_DB := ∅ |}).
Proof. split; reflexivity. Qed.

(** ** Sorting by key, most recent first *)

Section SortFacts.
Context {A : Type} (key : A -> string).

Lemma ltb_true_le (a b : string) :
  String.ltb a b = true -> String.le a b /\ a <> b.
Proof.
  unfold String.ltb, String.le, String.leb. intros H.
  destruct (String.compare a b) eqn:E; try discriminate. split; [done |].
  intros ->. pose proof (String.compare_antisym b b) as Ha.
  rewrite E in Ha. discriminate Ha.
Qed.

Lemma ltb_false_le (a b : string) :
  String.ltb a b = false -> String.le b a.
Proof.
  unfold String.ltb, String.le, String.leb.
  rewrite (String.compare_antisym b a).
  destruct (String.compare a b); cbn; intros H; (done || discriminate H).
Qed.

Lemma le_ltb_false (a b : string) :
  String.le b a -> String.ltb a b = false.
Proof.
  intros Hle. destruct (String.ltb a b) eqn:E; [| done].
  apply ltb_true_le in E as [Hab Hne].
  destruct Hne. by apply (anti_symm String.le).
Qed.

Lemma insert_desc_Permutation (x : A) (l : list A) :
  insert_desc key x l ≡ₚ x :: l.
Proof.
  induction l as [|y l IH]; simpl; [done |].
  destruct (String.ltb (key x) (key y)); [| done].
  rewrite IH. apply Permutation_swap.
Qed.

Lemma sort_desc_Permutation (l : list A) : sort_desc key l ≡ₚ l.
Proof.
  induction l as [|x l IH]; simpl; [done |].
  by rewrite insert_desc_Permutation, IH.
Qed.

Lemma insert_desc_sorted (x : A) (l : list A) :
  StronglySorted (key_desc key) l ->
  StronglySorted (key_desc key) (insert_desc key x l).
Proof.
  induction 1 as [|y l Hl IH Hy]; simpl.
  - repeat constructor.
  - destruct (String.ltb (key x) (key y)) eqn:E.
    + constructor; [exact IH |].
      rewrite insert_desc_Permutation. constructor; [| exact Hy].
      apply ltb_true_le in E as [E _]. exact E.
    + apply ltb_false_le in E.
      constructor; [by constructor |].
      constructor; [exact E |].
      eapply Forall_impl; [exact Hy |].
      intros z Hz. unfold key_desc in *. by etrans.
Qed.

Lemma sort_desc_sorted (l : list A) :
  StronglySorted (key_desc key) (sort_desc key l).
Proof.
  induction l as [|x l IH]; simpl; [constructor |].
  by apply insert_desc_sorted.
Qed.

(** A list already in descending key order is left as it is. *)
Lemma sort_desc_fixed (l : list A) :
  StronglySorted (key_desc key) l -> sort_desc key l = l.
Proof.
  induction 1 as [|x l Hl IH Hx]; simpl; [done |].
  rewrite IH. destruct Hx as [|y l Hy _]; simpl; [done |].
  by rewrite (le_ltb_false _ _ Hy).
Qed.


End SortFacts.

(** Records with equal stamps keep their stored order, as a stable sort
    leaves them. *)
Example sort_desc_stable :
  let mk p b := Ticket.mk p None None None b "CONFIRMED" in
  sort_desc Ticket.booked_on
    [mk "a" "2024-01-01 10:00:00"; mk "b" "2024-01-03 10:00:00";
     mk "c" "2024-01-02 10:00:00"; mk "d" "2024-01-03 10:00:00"] =
    [mk "b" "2024-01-03 10:00:00"; mk "d" "2024-01-03 10:00:00";
     mk "c" "2024-01-02 10:00:00"; mk "a" "2024-01-01 10:00:00"].
Proof. reflexivity. Qed.

(** ** Ticket retrieval presenter *)

Section Retrieval.
Implicit Types (tracker : Tracker) (w : World) (stored : list Ticket.t).

Lemma split_head (s : string) :
  head (PyStr.split " "%char s) = Some (until_space s).
Proof.
  induction s as [|c s IH]; simpl; [done |].
  destruct (decide (c = " "%char)); [done |].
  destruct (PyStr.split " "%char s) as [|h t]; [done |].
  simpl in *. congruence.
Qed.

Lemma date_part_until_space (s : string) : date_part s = until_space s.
Proof. unfold date_part. by rewrite split_head. Qed.

Lemma ticket_block_rendered (i : nat) (ticket : Ticket.t) :
  ticket_block i ticket = rendered_block (PyStr.str (Z.of_nat i + 1)) ticket.
Proof. unfold ticket_block, rendered_block. by rewrite date_part_until_space. Qed.

Lemma retrieve_empty tracker w :
  default [] (TICKET_DB w !! sender_id tracker) = [] ->
  ActionRetrieveTickets_run tracker w =
  ([], {| messages := messages w ++ [no_tickets_message]; TICKET_DB := TICKET_DB w |}).
Proof.
  intros H. unfold ActionRetrieveTickets_run, bind, db_get. by rewrite H.
Qed.

Lemma alter_stored (f : list Ticket.t -> list Ticket.t)
    (db : gmap string (list Ticket.t)) (user_id : string) stored :
  db !! user_id = Some stored -> alter f user_id db = <[user_id := f stored]> db.
Proof.
  intros H. apply map_eq. intros k. rewrite lookup_alter, lookup_insert.
  destruct (decide (user_id = k)) as [<-|]; [by rewrite H | done].
Qed.

Lemma retrieve_nonempty tracker w stored :
  TICKET_DB w !! sender_id tracker = Some stored ->
  stored <> [] ->
  ActionRetrieveTickets_run tracker w =
  ([], {| messages := messages w ++
            [PyStr.join PyStr.nl
               (tickets_header :: imap ticket_block (sort_desc Ticket.booked_on stored))];
          TICKET_DB := <[sender_id tracker := sort_desc Ticket.booked_on stored]>
                         (TICKET_DB w) |}).
Proof.
  intros H Hne. unfold ActionRetrieveTickets_run, bind, db_get. rewrite H.
  destruct stored as [|t stored]; [done |].
  unfold db_sort_in_place, db_modify, utter_message, ret.
  cbn [default from_option id]. cbv beta iota. cbn [TICKET_DB messages].
  rewrite (alter_stored _ _ _ _ H), lookup_insert_eq. reflexivity.
Qed.

End Retrieval.

(** C8. For a user without stored records (no entry, or an empty one) the
    presenter sends the fixed message and nothing else, returns no events
    and leaves the store as it was. *)
Theorem retrieve_no_tickets (tracker : Tracker) (w : World)
    (Hnone : TICKET_DB w !! sender_id tracker = None \/
             TICKET_DB w !! sender_id tracker = Some []) :
  ActionRetrieveTickets_run tracker w =
  ([], {| messages := messages w ++
            ["You currently have no unreserved tickets booked with me."];
          TICKET_DB := TICKET_DB w |}).
Proof.
  apply retrieve_empty. by destruct Hnone as [-> | ->].
Qed.

Lemma retrieve_no_tickets_witness :
  let tracker := {| sender_id := "carol"; slots := ∅; latest_message := ∅ |} in
  let w := {| messages := ["hello"];
              TICKET_DB := {[ "dave" := [Ticket.mk "1234567890" (Some "Paris") (Some "Berlin")
                                           (Some "UPI") "2024-05-06 07:08:09" "CONFIRMED"] ]} |} in
  ActionRetrieveTickets_run tracker w =
  ([], {| messages := ["hello"; "You currently have no unreserved tickets booked with me."];
          TICKET_DB := TICKET_DB w |}).
Proof.
  intros tracker w. apply (retrieve_no_tickets tracker w). left. reflexivity.
Defined.

(** C7. Retrieval for a user with at least one stored record rewrites that
    user's stored sequence into descending booking order: the new sequence
    holds the same records, most recent first, and the store differs from
    the one before unless the sequence was in that order already. *)
Theorem retrieve_sorts_store_in_place
    (tracker : Tracker) (w : World) (stored : list Ticket.t)
    (Hstored : TICKET_DB w !! sender_id tracker = Some stored)
    (Hne : stored <> []) :
  let result := ActionRetrieveTickets_run tracker w in
  exists sorted : list Ticket.t,
    TICKET_DB result.2 = <[sender_id tracker := sorted]> (TICKET_DB w) /\
    sorted ≡ₚ stored /\
    StronglySorted booked_desc sorted /\
    (TICKET_DB result.2 = TICKET_DB w <-> StronglySorted booked_desc stored).
Proof.
  intros result. subst result.
  rewrite (retrieve_nonempty tracker w stored Hstored Hne). cbn [snd TICKET_DB].
  exists (sort_desc Ticket.booked_on stored).
  split; [done |]. split; [apply sort_desc_Permutation |].
  split; [apply sort_desc_sorted |]. split.
  - intros Heq.
    assert (Some (sort_desc Ticket.booked_on stored) = Some stored) as [= E].
    { rewrite <- Hstored, <- Heq. by rewrite lookup_insert_eq. }
    rewrite <- E. apply sort_desc_sorted.
  - intros Hs. unfold booked_desc in Hs. rewrite (sort_desc_fixed _ _ Hs).
    by apply insert_id.
Qed.

Lemma retrieve_sorts_store_in_place_witness :
  let older := Ticket.mk "1111111111" (Some "Paris") (Some "Berlin") (Some "UPI")
                 "2024-05-06 07:08:09" "CONFIRMED" in
  let newer := Ticket.mk "2222222222" (Some "Berlin") (Some "Paris") (Some "card")
                 "2024-06-01 10:00:00" "CONFIRMED" in
  let tracker := {| sender_id := "alice"; slots := ∅; latest_message := ∅ |} in
  let w := {| messages := []; TICKET_DB := {[ "alice" := [older; newer] ]} |} in
  exists sorted : list Ticket.t,
    TICKET_DB (ActionRetrieveTickets_run tracker w).2 = <["alice" := sorted]> (TICKET_DB w) /\
    sorted ≡ₚ [older; newer] /\
    StronglySorted booked_desc sorted /\
    (TICKET_DB (ActionRetrieveTickets_run tracker w).2 = TICKET_DB w <->
     StronglySorted booked_desc [older; newer]).
Proof.
  intros older newer tracker w.
  apply (retrieve_sorts_store_in_place tracker w [older; newer]).
  - reflexivity.
  - discriminate.
Defined.

(** The stored order after a retrieval is not the insertion order: the
    sequence booked as older, newer is held as newer, older afterwards. *)
Example retrieve_reorders_store :
  let older := Ticket.mk "1111111111" (Some "Paris") (Some "Berlin") (Some "UPI")
                 "2024-05-06 07:08:09" "CONFIRMED" in
  let newer := Ticket.mk "2222222222" (Some "Berlin") (Some "Paris") (Some "card")
                 "2024-06-01 10:00:00" "CONFIRMED" in
  let tracker := {| sender_id := "alice"; slots := ∅; latest_message := ∅ |} in
  let w := {| messages := []; TICKET_DB := {[ "alice" := [older; newer] ]} |} in
  TICKET_DB (ActionRetrieveTickets_run tracker w).2 !! "alice" = Some [newer; older].
Proof. reflexivity. Qed.

Section ThreeTickets.
Variables t1 t2 t3 : Ticket.t.
Hypothesis H12 : String.ltb (Ticket.booked_on t1) (Ticket.booked_on t2) = true.
Hypothesis H23 : String.ltb (Ticket.booked_on t2) (Ticket.booked_on t3) = true.

Lemma three_descending : StronglySorted booked_desc [t3; t2; t1].
Proof.
  apply ltb_true_le in H12 as [L12 _]. apply ltb_true_le in H23 as [L23 _].
  assert (String.le (Ticket.booked_on t1) (Ticket.booked_on t3)) by by etrans.
  unfold booked_desc, key_desc. repeat constructor; assumption.
Qed.

Lemma three_distinct_keys (a b : Ticket.t) :
  a ∈ [t1; t2; t3] -> b ∈ [t3; t2; t1] ->
  booked_desc a b -> booked_desc b a -> a = b.
Proof.
  unfold booked_desc, key_desc. intros Ha Hb Hab Hba.
  assert (Ticket.booked_on a = Ticket.booked_on b) as Heq
    by by apply (anti_symm String.le).
  apply ltb_true_le in H12 as [L12 N12]. apply ltb_true_le in H23 as [L23 N23].
  assert (Ticket.booked_on t1 <> Ticket.booked_on t3) as N13.
  { intros E. rewrite E in L12. apply N23. by apply (anti_symm String.le). }
  set_unfold.
  destruct Ha as [Ea|[Ea|[Ea|[]]]], Hb as [Eb|[Eb|[Eb|[]]]]; congruence.
Qed.

(** However the three records are stored, sorting lists them T3, T2, T1. *)
Lemma sort_three (stored : list Ticket.t) :
  stored ≡ₚ [t1; t2; t3] ->
  sort_desc Ticket.booked_on stored = [t3; t2; t1].
Proof.
  intros Hperm.
  apply (StronglySorted_unique_strong booked_desc).
  - intros a b Ha Hb. apply three_distinct_keys; [| done].
    by rewrite sort_desc_Permutation, Hperm in Ha.
  - apply sort_desc_sorted.
  - apply three_descending.
  - rewrite sort_desc_Permutation, Hperm. symmetry.
    apply (reverse_Permutation [t1; t2; t3]).
Qed.

End ThreeTickets.

(** C6. For a user holding three records booked at T1 < T2 < T3, in any
    stored order, the presenter sends one message whose blocks are
    numbered 1, 2, 3 and show the records of T3, T2, T1 in that order, each
    with its PNR, its route and its stamp cut at the first blank. *)
Theorem retrieve_three_most_recent_first
    (tracker : Tracker) (w : World) (stored : list Ticket.t) (t1 t2 t3 : Ticket.t)
    (Hstored : TICKET_DB w !! sender_id tracker = Some stored)
    (Hperm : stored ≡ₚ [t1; t2; t3])
    (H12 : String.ltb (Ticket.booked_on t1) (Ticket.booked_on t2) = true)
    (H23 : String.ltb (Ticket.booked_on t2) (Ticket.booked_on t3) = true) :
  let result := ActionRetrieveTickets_run tracker w in
  result.1 = [] /\
  messages result.2 = messages w ++
    [ "Here are your recent unreserved ticket bookings:" +:+ PyStr.nl +:+
      rendered_block "1" t3 +:+ PyStr.nl +:+
      rendered_block "2" t2 +:+ PyStr.nl +:+
      rendered_block "3" t1 ].
Proof.
  intros result. subst result.
  assert (stored <> []) as Hne.
  { intros ->. by apply Permutation_nil_l in Hperm. }
  rewrite (retrieve_nonempty tracker w stored Hstored Hne).
  rewrite (sort_three t1 t2 t3 H12 H23 stored Hperm).
  cbn [fst snd messages]. split; [done |].
  unfold rendered_block. rewrite <- !date_part_until_space. reflexivity.
Qed.

Lemma retrieve_three_most_recent_first_witness :
  let a := Ticket.mk "1111111111" (Some "Paris") (Some "Berlin") (Some "UPI")
             "2024-05-06 07:08:09" "CONFIRMED" in
  let b := Ticket.mk "2222222222" (Some "Berlin") (Some "Paris") (Some "card")
             "2024-06-01 10:00:00" "CONFIRMED" in
  let c := Ticket.mk "3333333333" (Some "Paris") (Some "Madrid") (Some "UPI")
             "2024-06-01 10:00:01" "CONFIRMED" in
  let tracker := {| sender_id := "alice"; slots := ∅; latest_message := ∅ |} in
  let w := {| messages := []; TICKET_DB := {[ "alice" := [b; a; c] ]} |} in
  (ActionRetrieveTickets_run tracker w).1 = [] /\
  messages (ActionRetrieveTickets_run tracker w).2 = [] ++
    [ "Here are your recent unreserved ticket bookings:" +:+ PyStr.nl +:+
      rendered_block "1" c +:+ PyStr.nl +:+
      rendered_block "2" b +:+ PyStr.nl +:+
      rendered_block "3" a ].
Proof.
  intros a b c tracker w.
  apply (retrieve_three_most_recent_first tracker w [b; a; c] a b c).
  - reflexivity.
  - apply Permutation_swap.
  - reflexivity.
  - reflexivity.
Defined.

(** * Further properties of the handlers *)

(** ** Form validation *)

Section ValidationFacts.
Implicit Types (tracker : Tracker) (w : World).

Lemma occurs_in_trans (a b c : string) :
  occurs_in a b -> occurs_in b c -> occurs_in a c.
Proof.
  intros (p & q & ->) (p' & q' & ->).
  exists (p' +:+ p), (q +:+ q'). by rewrite !append_assoc.
Qed.

Lemma occurs_in_middle (before s after : string) :
  occurs_in s (before +:+ s +:+ after).
Proof. by exists before, after. Qed.

Lemma occurs_in_grow (a s before after : string) :
  occurs_in a s -> occurs_in a (before +:+ s +:+ after).
Proof. intros H. eapply occurs_in_trans; [exact H | apply occurs_in_middle]. Qed.

Lemma lower_char_idemp (c : ascii) :
  PyStr.lower_char (PyStr.lower_char c) = PyStr.lower_char c.
Proof. destruct c as [[] [] [] [] [] [] [] []]; reflexivity. Qed.

Lemma lower_idemp (s : string) : PyStr.lower (PyStr.lower s) = PyStr.lower s.
Proof.
  induction s as [|c s IH]; [done |].
  simpl. by rewrite lower_char_idemp, IH.
Qed.

Lemma lower_length (s : string) : String.length (PyStr.lower s) = String.length s.
Proof. induction s as [|c s IH]; simpl; [done | by rewrite IH]. Qed.

End ValidationFacts.

(** X1. A route whose source was accepted by [validate_source] and whose
    destination was accepted by [validate_destination] against that source
    has two names longer than 3 characters that differ even when case is
    ignored. *)
Theorem accepted_route_distinct
    (s d : string) (tracker0 tracker : Tracker) (w0 w : World)
    (Hsrc : (validate_source s tracker0 w0).1 !! "source" = Some (Some s))
    (Hslot : get_slot tracker "source" = Some s)
    (Hdst : (validate_destination d tracker w).1 !! "destination" = Some (Some d)) :
  3 < String.length s /\ 3 < String.length d /\ PyStr.lower s <> PyStr.lower d.
Proof.
  unfold validate_source in Hsrc. unfold validate_destination in Hdst.
  rewrite Hslot in Hdst.
  destruct (is_valid_station s) eqn:Es; [| by cbn in Hsrc].
  destruct (is_valid_station d) eqn:Ed; [| by cbn in Hdst].
  apply Nat.ltb_lt in Es, Ed. split; [done |]. split; [done |].
  intros Heq.
  assert (same_station (Some s) d = true) as Hsame.
  { apply same_station_spec. exists s. repeat split; [| done].
    intros ->. simpl in Es. lia. }
  rewrite Hsame in Hdst. by cbn in Hdst.
Qed.

Lemma accepted_route_distinct_witness :
  let tracker0 := {| sender_id := "u"; slots := ∅; latest_message := ∅ |} in
  let tracker := {| sender_id := "u"; slots := {[ "source" := "Paris" ]};
                    latest_message := ∅ |} in
  3 < String.length "Paris" /\ 3 < String.length "Berlin" /\
  PyStr.lower "Paris" <> PyStr.lower "Berlin".
Proof.
  intros tracker0 tracker.
  apply (accepted_route_distinct "Paris" "Berlin" tracker0 tracker
           initial_world initial_world); reflexivity.
Defined.

(** X2. A candidate destination of at most 3 characters is turned down as
    an unknown station whatever the source slot holds: the slot is cleared,
    one message quoting the candidate is sent, and the duplicate-route
    message is not used even when the candidate equals the source. *)
Theorem validate_destination_short_name
    (slot_value : string) (tracker : Tracker) (w : World)
    (Hshort : String.length slot_value <= 3) :
  let result := validate_destination slot_value tracker w in
  result.1 = {[ "destination" := None ]} /\
  TICKET_DB result.2 = TICKET_DB w /\
  messages result.2 = messages w ++
    ["I don't recognize '" +:+ slot_value +:+
     "' as a valid destination station. Please try another name."] /\
  occurs_in slot_value (default EmptyString (last (messages result.2))).
Proof.
  intros result. subst result. unfold validate_destination.
  assert (is_valid_station slot_value = false) as ->
    by by apply Nat.ltb_ge.
  cbn. repeat split. rewrite last_snoc. cbn.
  apply occurs_in_middle.
Qed.

Lemma validate_destination_short_name_witness :
  let tracker := {| sender_id := "u"; slots := {[ "source" := "NYC" ]};
                    latest_message := ∅ |} in
  (validate_destination "nyc" tracker initial_world).1 = {[ "destination" := None ]} /\
  messages (validate_destination "nyc" tracker initial_world).2 =
    ["I don't recognize 'nyc' as a valid destination station. Please try another name."].
Proof.
  intros tracker.
  destruct (validate_destination_short_name "nyc" tracker initial_world)
    as (H1 & _ & H3 & _).
  - simpl. lia.
  - split; [exact H1 | exact H3].
Defined.

(** X3. Each of the three validators either keeps the value it was given
    and sends nothing, or clears its slot and sends exactly one message;
    none of them touches the ticket store. *)
Theorem validators_keep_or_clear (slot_value : string) (tracker : Tracker) (w : World) :
  let outcome (slot : string) (result : gmap string (option string) * World) :=
    TICKET_DB result.2 = TICKET_DB w /\
    ((result.1 = {[ slot := Some slot_value ]} /\ messages result.2 = messages w) \/
     (result.1 = {[ slot := None ]} /\
      exists text, messages result.2 = messages w ++ [text])) in
  outcome "source" (validate_source slot_value tracker w) /\
  outcome "destination" (validate_destination slot_value tracker w) /\
  outcome "payment_method" (validate_payment_method slot_value tracker w).
Proof.
  cbv zeta. unfold validate_source, validate_destination, validate_payment_method.
  repeat split.
  - destruct (is_valid_station slot_value); cbn; done.
  - destruct (is_valid_station slot_value); cbn; [by left | right; eauto].
  - destruct (is_valid_station slot_value);
      [destruct (same_station _ slot_value) |]; cbn; done.
  - destruct (is_valid_station slot_value);
      [destruct (same_station _ slot_value) |]; cbn;
      (by left) || (right; eauto).
  - destruct (is_valid_payment slot_value); cbn; done.
  - destruct (is_valid_payment slot_value); cbn; [by left | right; eauto].
Qed.

(** ** Payment keywords *)

(** X4. Four keywords decide the payment check: a text is accepted exactly
    when its lower-cased form contains upi, card, net banking or google
    pay; the entries credit card and debit card of the list add nothing. *)
Theorem is_valid_payment_four_keywords (s : string) :
  is_valid_payment s = true <->
  exists keyword,
    keyword ∈ ["upi"; "card"; "net banking"; "google pay"] /\
    occurs_in keyword (PyStr.lower s).
Proof.
  rewrite is_valid_payment_iff. unfold supported_methods. split.
  - intros (k & Hin & Hocc). set_unfold.
    destruct Hin as [->|[->|[->|[->|[->|[->|[]]]]]]].
    + exists "upi". split; [tauto | done].
    + exists "card". split; [tauto | done].
    + exists "card". split; [tauto |].
      eapply occurs_in_trans; [| exact Hocc]. by exists "credit ", "".
    + exists "card". split; [tauto |].
      eapply occurs_in_trans; [| exact Hocc]. by exists "debit ", "".
    + exists "net banking". split; [tauto | done].
    + exists "google pay". split; [tauto | done].
  - intros (k & Hin & Hocc). exists k. split; [| done]. set_unfold. tauto.
Qed.

(** X5. The payment check ignores case and surrounding text: a text and
    its lower-cased form get the same verdict, and a text that is accepted
    stays accepted when more text is put in front of it and behind it. *)
Theorem is_valid_payment_case_and_context (s before after : string) :
  is_valid_payment (PyStr.lower s) = is_valid_payment s /\
  (is_valid_payment s = true -> is_valid_payment (before +:+ s +:+ after) = true).
Proof.
  split.
  - unfold is_valid_payment. by rewrite lower_idemp.
  - rewrite !is_valid_payment_iff. intros (k & Hin & Hocc).
    exists k. split; [done |]. rewrite !lower_append. by apply occurs_in_grow.
Qed.

(** ** Booking confirmation presenter *)

(** X6. The confirmation presenter sends exactly one message, which shows
    the route, the fixed amount Rs 120 and the payment method as the slots
    hold them (an unset slot prints as None); it returns the single event
    that clears payment_confirmed, so the three booking slots stay as they
    are, and it does not touch the ticket store. *)
Theorem confirm_payment_summary (tracker : Tracker) (w : World) :
  let result := ActionConfirmPayment_run tracker w in
  let source := PyStr.fmt (get_slot tracker "source") in
  let destination := PyStr.fmt (get_slot tracker "destination") in
  let payment_method := PyStr.fmt (get_slot tracker "payment_method") in
  result.1 = [SlotSet "payment_confirmed" None] /\
  TICKET_DB result.2 = TICKET_DB w /\
  exists text,
    messages result.2 = messages w ++ [text] /\
    occurs_in ("**Route:** " +:+ source +:+ " to " +:+ destination +:+ PyStr.nl) text /\
    occurs_in ("**Amount:** Rs 120" +:+ PyStr.nl) text /\
    occurs_in ("**Payment Method:** " +:+ payment_method +:+ PyStr.nl) text.
Proof.
  cbv zeta. split; [done |]. split; [done |].
  eexists. split; [reflexivity |]. unfold confirmation_message.
  repeat split.
  - eexists ("Please confirm your booking details:" +:+ PyStr.nl +:+ PyStr.nl), _.
    rewrite !append_assoc. reflexivity.
  - eexists ("Please confirm your booking details:" +:+ PyStr.nl +:+ PyStr.nl +:+
             "**Route:** " +:+ PyStr.fmt (get_slot tracker "source") +:+ " to " +:+
             PyStr.fmt (get_slot tracker "destination") +:+ PyStr.nl), _.
    rewrite !append_assoc. reflexivity.
  - eexists ("Please confirm your booking details:" +:+ PyStr.nl +:+ PyStr.nl +:+
             "**Route:** " +:+ PyStr.fmt (get_slot tracker "source") +:+ " to " +:+
             PyStr.fmt (get_slot tracker "destination") +:+ PyStr.nl +:+
             "**Amount:** Rs " +:+ PyStr.str TICKET_PRICE +:+ PyStr.nl), _.
    rewrite !append_assoc. reflexivity.
Qed.

(** ** The ticket store under the handlers *)

Section StoreFacts.
Implicit Types (tracker : Tracker) (w : World) (stored : list Ticket.t).

(** What one call does to the store: nothing, one record appended for the
    sender, or the sender's sequence sorted. *)
Lemma perform_store (call : Call) tracker w :
  TICKET_DB (perform call tracker w) = TICKET_DB w \/
  (exists host,
     call = ProcessBooking host /\
     TICKET_DB (perform call tracker w) =
       <[sender_id tracker :=
           tickets_of w (sender_id tracker) ++ [committed_ticket host tracker]]>
         (TICKET_DB w)) \/
  (exists stored,
     TICKET_DB w !! sender_id tracker = Some stored /\ stored <> [] /\
     TICKET_DB (perform call tracker w) =
       <[sender_id tracker := sort_desc Ticket.booked_on stored]> (TICKET_DB w)).
Proof.
  destruct call as [v|v|v| |host|]; cbn [perform].
  - left. unfold validate_source. by destruct (is_valid_station v).
  - left. unfold validate_destination.
    destruct (is_valid_station v); [destruct (same_station _ v) |]; done.
  - left. unfold validate_payment_method. by destruct (is_valid_payment v).
  - by left.
  - destruct (decide (intent_name tracker = Some "affirm")) as [Hi|Hi].
    + right. left. exists host. split; [done |].
      by rewrite (process_booking_affirm host tracker w Hi).
    + left. by rewrite (process_booking_other host tracker w Hi).
  - destruct (TICKET_DB w !! sender_id tracker) as [[|t stored]|] eqn:E.
    + left. rewrite retrieve_empty; [done | by rewrite E].
    + right. right. exists (t :: stored). split; [done |]. split; [done |].
      by rewrite (retrieve_nonempty tracker w (t :: stored) E).
    + left. rewrite retrieve_empty; [done | by rewrite E].
Qed.

Lemma sort_desc_not_nil stored : stored <> [] -> sort_desc Ticket.booked_on stored <> [].
Proof.
  intros Hne Hnil. apply Hne. apply Permutation_nil_r. rewrite <- Hnil.
  symmetry. apply sort_desc_Permutation.
Qed.

Lemma join_header_text (blocks : list string) :
  exists rest, PyStr.join PyStr.nl (tickets_header :: blocks) = tickets_header +:+ rest.
Proof.
  unfold PyStr.join. destruct blocks as [|b blocks]; cbn [String.concat].
  - exists EmptyString. generalize tickets_header.
    intros s. induction s as [|c s IH]; [done |]. rewrite append_cons. by f_equal.
  - eauto.
Qed.

Lemma join_header_not_empty_case (blocks : list string) :
  PyStr.join PyStr.nl (tickets_header :: blocks) <> no_tickets_message.
Proof.
  destruct (join_header_text blocks) as [rest ->]. discriminate.
Qed.

End StoreFacts.

(** X7. After a confirmed booking, a retrieval for the same sender never
    answers with the no-tickets message: it lists the sender's earlier
    records together with the new one, most recent first, and the store
    holds them in that order. *)
Theorem booking_then_retrieve
    (host : Host) (tracker tracker' : Tracker) (w : World)
    (Hintent : intent_name tracker = Some "affirm")
    (Hsame : sender_id tracker' = sender_id tracker) :
  let booked := (ActionProcessBooking_run host tracker w).2 in
  let result := ActionRetrieveTickets_run tracker' booked in
  let shown := tickets_of result.2 (sender_id tracker) in
  shown ≡ₚ tickets_of w (sender_id tracker) ++ [committed_ticket host tracker] /\
  StronglySorted booked_desc shown /\
  messages result.2 =
    messages booked ++ [PyStr.join PyStr.nl (tickets_header :: imap ticket_block shown)] /\
  last (messages result.2) <> Some no_tickets_message.
Proof.
  intros booked result shown. subst booked result shown.
  rewrite (process_booking_affirm host tracker w Hintent). cbn [snd].
  set (old := default [] (TICKET_DB w !! sender_id tracker)).
  set (new := committed_ticket host tracker).
  set (msgs := messages w ++ _).
  erewrite (retrieve_nonempty tracker' _ (old ++ [new])); cycle 1.
  { cbn [TICKET_DB]. rewrite Hsame. apply lookup_insert_eq. }
  { intros H. apply app_nil in H. destruct H as [_ H]. discriminate H. }
  cbn [snd fst messages TICKET_DB]. unfold tickets_of. cbn [TICKET_DB].
  rewrite Hsame, !lookup_insert_eq. cbn [default from_option id].
  split; [apply sort_desc_Permutation |].
  split; [apply sort_desc_sorted |].
  split; [done |].
  rewrite last_snoc. intros [= H]. by apply join_header_not_empty_case in H.
Qed.

Lemma booking_then_retrieve_witness :
  let host := {| randint := fun lo hi => hi; strftime_now := "2024-05-06 07:08:09" |} in
  let tracker := {| sender_id := "alice"; slots := {[ "source" := "Paris" ]};
                    latest_message := {[ "intent" := {[ "name" := "affirm" ]} ]} |} in
  let later := {| sender_id := "alice"; slots := ∅; latest_message := ∅ |} in
  let booked := (ActionProcessBooking_run host tracker initial_world).2 in
  last (messages (ActionRetrieveTickets_run later booked).2) <> Some no_tickets_message.
Proof.
  intros host tracker later booked.
  apply (booking_then_retrieve host tracker later initial_world); reflexivity.
Defined.

(** X8. A second retrieval for the same sender changes nothing more: the
    store stays as the first retrieval left it and the same text is sent
    again. *)
Theorem retrieve_twice (tracker tracker' : Tracker) (w : World)
    (Hsame : sender_id tracker' = sender_id tracker) :
  let first := ActionRetrieveTickets_run tracker w in
  let second := ActionRetrieveTickets_run tracker' first.2 in
  TICKET_DB second.2 = TICKET_DB first.2 /\
  exists text,
    messages first.2 = messages w ++ [text] /\
    messages second.2 = messages w ++ [text; text].
Proof.
  intros first second. subst first second.
  destruct (TICKET_DB w !! sender_id tracker) as [stored|] eqn:E;
    [destruct (decide (stored = [])) as [->|Hne] |].
  - rewrite (retrieve_empty tracker w) by by rewrite E. cbn [snd].
    rewrite (retrieve_empty tracker') by by (cbn [TICKET_DB]; rewrite Hsame, E).
    cbn. split; [done |]. eexists. split; [done |]. by rewrite <- app_assoc.
  - rewrite (retrieve_nonempty tracker w stored E Hne). cbn [snd].
    erewrite (retrieve_nonempty tracker' _ (sort_desc Ticket.booked_on stored)); cycle 1.
    { cbn [TICKET_DB]. rewrite Hsame. apply lookup_insert_eq. }
    { by apply sort_desc_not_nil. }
    cbn [snd TICKET_DB messages].
    rewrite (sort_desc_fixed _ _ (sort_desc_sorted Ticket.booked_on stored)).
    rewrite Hsame, insert_insert_eq. split; [done |].
    eexists. split; [done |]. by rewrite <- app_assoc.
  - rewrite (retrieve_empty tracker w) by by rewrite E. cbn [snd].
    rewrite (retrieve_empty tracker') by by (cbn [TICKET_DB]; rewrite Hsame, E).
    cbn. split; [done |]. eexists. split; [done |]. by rewrite <- app_assoc.
Qed.

Lemma retrieve_twice_witness :
  let older := Ticket.mk "1111111111" (Some "Paris") (Some "Berlin") (Some "UPI")
                 "2024-05-06 07:08:09" "CONFIRMED" in
  let newer := Ticket.mk "2222222222" (Some "Berlin") (Some "Paris") (Some "card")
                 "2024-06-01 10:00:00" "CONFIRMED" in
  let tracker := {| sender_id := "alice"; slots := ∅; latest_message := ∅ |} in
  let w := {| messages := []; TICKET_DB := {[ "alice" := [older; newer] ]} |} in
  TICKET_DB (ActionRetrieveTickets_run tracker (ActionRetrieveTickets_run tracker w).2).2 =
  TICKET_DB (ActionRetrieveTickets_run tracker w).2.
Proof.
  intros older newer tracker w.
  apply (retrieve_twice tracker tracker w). reflexivity.
Defined.

(** X9. A retrieval returns no events and sends exactly one message; it
    keeps the set of users of the store, leaves every other user's entry
    as it was, and keeps for every user the same records (only their order
    may change). *)
Theorem retrieve_frame (tracker : Tracker) (w : World) :
  let result := ActionRetrieveTickets_run tracker w in
  result.1 = [] /\
  (exists text, messages result.2 = messages w ++ [text]) /\
  dom (TICKET_DB result.2) = dom (TICKET_DB w) /\
  forall user : string,
    tickets_of result.2 user ≡ₚ tickets_of w user /\
    (user <> sender_id tracker -> TICKET_DB result.2 !! user = TICKET_DB w !! user).
Proof.
  intros result. subst result.
  destruct (TICKET_DB w !! sender_id tracker) as [stored|] eqn:E;
    [destruct (decide (stored = [])) as [->|Hne] |].
  - rewrite (retrieve_empty tracker w) by by rewrite E.
    cbn. repeat split; eauto.
  - rewrite (retrieve_nonempty tracker w stored E Hne). cbn [fst snd messages TICKET_DB].
    split; [done |]. split; [eauto |]. split.
    + by apply dom_insert_lookup_L.
    + intros user. unfold tickets_of. cbn [TICKET_DB]. split.
      * destruct (decide (user = sender_id tracker)) as [->|Hu].
        -- rewrite lookup_insert_eq, E. cbn. apply sort_desc_Permutation.
        -- by rewrite lookup_insert_ne.
      * intros Hu. by rewrite lookup_insert_ne.
  - rewrite (retrieve_empty tracker w) by by rewrite E.
    cbn. repeat split; eauto.
Qed.

Lemma retrieve_frame_perm (tracker : Tracker) (w : World) (user : string) :
  tickets_of (ActionRetrieveTickets_run tracker w).2 user ≡ₚ tickets_of w user /\
  (user <> sender_id tracker ->
   TICKET_DB (ActionRetrieveTickets_run tracker w).2 !! user = TICKET_DB w !! user).
Proof.
  destruct (TICKET_DB w !! sender_id tracker) as [stored|] eqn:E;
    [destruct (decide (stored = [])) as [->|Hne] |].
  - rewrite (retrieve_empty tracker w) by by rewrite E. done.
  - rewrite (retrieve_nonempty tracker w stored E Hne).
    unfold tickets_of. cbn [snd TICKET_DB]. split.
    + destruct (decide (user = sender_id tracker)) as [->|Hu].
      * rewrite lookup_insert_eq, E. cbn. apply sort_desc_Permutation.
      * by rewrite lookup_insert_ne.
    + intros Hu. by rewrite lookup_insert_ne.
  - rewrite (retrieve_empty tracker w) by by rewrite E. done.
Qed.

(** ** Sessions: what holds after any sequence of calls *)

Section SessionFacts.
Implicit Types (tracker : Tracker) (w : World) (calls : list (Call * Tracker)).

(** A property of the sequence each user holds that appending a record of
    a good call and reordering both keep is kept by every good call. *)
Lemma perform_keeps (P : string -> list Ticket.t -> Prop) (good : Call -> Tracker -> Prop) :
  (forall user l l', l ≡ₚ l' -> P user l -> P user l') ->
  (forall host tracker l,
      good (ProcessBooking host) tracker ->
      P (sender_id tracker) l ->
      P (sender_id tracker) (l ++ [committed_ticket host tracker])) ->
  forall call tracker w,
    good call tracker ->
    (forall user, P user (tickets_of w user)) ->
    forall user, P user (tickets_of (perform call tracker w) user).
Proof.
  intros Hperm Happ call tracker w Hgood HP user.
  destruct (perform_store call tracker w) as [E | [(host & -> & E) | (stored & Hs & Hne & E)]];
    unfold tickets_of in *; rewrite E.
  - apply HP.
  - destruct (decide (user = sender_id tracker)) as [->|Hu].
    + rewrite lookup_insert_eq. cbn. by apply Happ.
    + rewrite lookup_insert_ne by done. apply HP.
  - destruct (decide (user = sender_id tracker)) as [->|Hu].
    + rewrite lookup_insert_eq. cbn. specialize (HP (sender_id tracker)).
      rewrite Hs in HP. cbn in HP.
      eapply Hperm; [| exact HP]. symmetry. apply sort_desc_Permutation.
    + rewrite lookup_insert_ne by done. apply HP.
Qed.

Lemma session_keeps (P : string -> list Ticket.t -> Prop) (good : Call -> Tracker -> Prop) :
  (forall user l l', l ≡ₚ l' -> P user l -> P user l') ->
  (forall host tracker l,
      good (ProcessBooking host) tracker ->
      P (sender_id tracker) l ->
      P (sender_id tracker) (l ++ [committed_ticket host tracker])) ->
  forall calls w,
    Forall (fun c => good c.1 c.2) calls ->
    (forall user, P user (tickets_of w user)) ->
    forall user, P user (tickets_of (session calls w) user).
Proof.
  intros Hperm Happ calls. induction calls as [|[call tracker] calls IH];
    intros w Hgood HP; [exact HP |].
  apply Forall_cons in Hgood as [Hg Hgood]. cbn [session].
  apply IH; [exact Hgood |]. by apply (perform_keeps P good).
Qed.

Lemma Forall_any_call (calls : list (Call * Tracker)) :
  Forall (fun c : Call * Tracker => (fun _ _ => True) c.1 c.2) calls.
Proof. by apply Forall_forall. Qed.

(** No call leaves an empty sequence in the store. *)
Lemma perform_no_empty_entry (call : Call) tracker w :
  (forall user, TICKET_DB w !! user <> Some []) ->
  forall user, TICKET_DB (perform call tracker w) !! user <> Some [].
Proof.
  intros HP user.
  destruct (perform_store call tracker w) as [E | [(host & -> & E) | (stored & Hs & Hne & E)]];
    rewrite E.
  - apply HP.
  - destruct (decide (user = sender_id tracker)) as [->|Hu].
    + rewrite lookup_insert_eq. intros [= H]. apply app_nil in H. destruct H as [_ H].
      discriminate H.
    + rewrite lookup_insert_ne by done. apply HP.
  - destruct (decide (user = sender_id tracker)) as [->|Hu].
    + rewrite lookup_insert_eq. intros [= H]. by apply sort_desc_not_nil in H.
    + rewrite lookup_insert_ne by done. apply HP.
Qed.

Lemma session_no_empty_entry calls w :
  (forall user, TICKET_DB w !! user <> Some []) ->
  forall user, TICKET_DB (session calls w) !! user <> Some [].
Proof.
  revert w. induction calls as [|[call tracker] calls IH]; intros w HP; [exact HP |].
  cbn [session]. apply IH. by apply perform_no_empty_entry.
Qed.

Lemma perform_count (call : Call) tracker w (user : string) :
  length (tickets_of (perform call tracker w) user) =
  length (tickets_of w user) + (if books_for user (call, tracker) then 1 else 0).
Proof.
  unfold books_for, tickets_of. cbn [fst snd].
  destruct call as [v|v|v| |host|]; cbn [perform].
  - unfold validate_source. destruct (is_valid_station v); cbn; lia.
  - unfold validate_destination.
    destruct (is_valid_station v); [destruct (same_station _ v) |]; cbn; lia.
  - unfold validate_payment_method. destruct (is_valid_payment v); cbn; lia.
  - cbn. lia.
  - destruct (decide (intent_name tracker = Some "affirm")) as [Hi|Hi].
    + rewrite (process_booking_affirm host tracker w Hi). cbn [snd TICKET_DB].
      destruct (decide (user = sender_id tracker)) as [->|Hu].
      * rewrite lookup_insert_eq, bool_decide_eq_true_2 by done.
        cbn. by rewrite length_app.
      * rewrite lookup_insert_ne by done.
        rewrite bool_decide_eq_false_2 by (intros [_ Heq]; congruence). lia.
    + rewrite (process_booking_other host tracker w Hi). cbn [snd TICKET_DB].
      rewrite bool_decide_eq_false_2 by (intros [Heq _]; congruence). lia.
  - destruct (retrieve_frame_perm tracker w user) as [H _].
    rewrite Nat.add_0_r. by apply Permutation_length.
Qed.

End SessionFacts.

(** X10. The store never loses a record: whatever calls follow, with
    whatever trackers and hosts, a ticket a user holds stays among the
    tickets of that user. *)
Theorem session_keeps_tickets
    (calls : list (Call * Tracker)) (w : World) (user : string) (ticket : Ticket.t)
    (Hin : ticket ∈ tickets_of w user) :
  ticket ∈ tickets_of (session calls w) user.
Proof.
  revert ticket Hin.
  apply (session_keeps (fun u l => forall t, t ∈ tickets_of w u -> t ∈ l)
           (fun _ _ => True)).
  - intros u l l' Hl H t Ht. rewrite <- Hl. by apply H.
  - intros host tracker l _ H t Ht. apply elem_of_app. left. by apply H.
  - apply Forall_any_call.
  - by intros u t Ht.
Qed.

Lemma session_keeps_tickets_witness :
  let ticket := Ticket.mk "1111111111" (Some "Paris") (Some "Berlin") (Some "UPI")
                  "2024-05-06 07:08:09" "CONFIRMED" in
  let host := {| randint := fun lo hi => lo; strftime_now := "2024-06-01 10:00:00" |} in
  let alice := {| sender_id := "alice"; slots := ∅;
                  latest_message := {[ "intent" := {[ "name" := "affirm" ]} ]} |} in
  let w := {| messages := []; TICKET_DB := {[ "alice" := [ticket] ]} |} in
  ticket ∈ tickets_of
    (session [(ProcessBooking host, alice); (RetrieveTickets, alice);
              (ValidateSource "NYC", alice)] w) "alice".
Proof.
  intros ticket host alice w.
  apply (session_keeps_tickets _ w "alice" ticket).
  vm_compute. apply list_elem_of_here.
Defined.

(** X11. In a process started with an empty store, after any sequence of
    calls no user has an empty entry and every stored record has status
    CONFIRMED; so a user has no tickets exactly when the store has no entry
    for that user. *)
Theorem session_store_well_formed (calls : list (Call * Tracker)) (user : string) :
  let w := session calls initial_world in
  TICKET_DB w !! user <> Some [] /\
  Forall (fun ticket => Ticket.status ticket = "CONFIRMED") (tickets_of w user) /\
  (tickets_of w user = [] <-> TICKET_DB w !! user = None).
Proof.
  intros w. subst w.
  assert (TICKET_DB (session calls initial_world) !! user <> Some []) as Hne.
  { apply session_no_empty_entry. intros u. cbn. by rewrite lookup_empty. }
  split; [exact Hne |]. split.
  - apply (session_keeps
             (fun _ l => Forall (fun ticket => Ticket.status ticket = "CONFIRMED") l)
             (fun _ _ => True)).
    + intros u l l' Hl H. by rewrite <- Hl.
    + intros host tracker l _ H. apply Forall_app. split; [exact H |].
      by repeat constructor.
    + apply Forall_any_call.
    + intros u. unfold tickets_of. cbn. rewrite lookup_empty. constructor.
  - unfold tickets_of.
    destruct (TICKET_DB (session calls initial_world) !! user) as [[|t l]|]; cbn; split;
      done.
Qed.

(** X12. When the random generator of every booking call keeps to the range
    it is asked for, every PNR stored by a process started with an empty
    store consists of ten digit characters. *)
Theorem session_pnr_shape (calls : list (Call * Tracker)) (user : string)
    (Hrange : Forall call_in_range calls) :
  Forall pnr_shape (tickets_of (session calls initial_world) user).
Proof.
  apply (session_keeps (fun _ l => Forall pnr_shape l)
           (fun call tracker => call_in_range (call, tracker))).
  - intros u l l' Hl H. by rewrite <- Hl.
  - intros host tracker l Hhost H. apply Forall_app. split; [exact H |].
    constructor; [| constructor]. apply str_pnr_shape. exact Hhost.
  - eapply Forall_impl; [exact Hrange |]. by intros [c t].
  - intros u. unfold tickets_of. cbn. rewrite lookup_empty. constructor.
Qed.

Lemma session_pnr_shape_witness :
  let host := {| randint := fun lo hi => (lo + 7)%Z; strftime_now := "2024-06-01 10:00:00" |} in
  let alice := {| sender_id := "alice"; slots := ∅;
                  latest_message := {[ "intent" := {[ "name" := "affirm" ]} ]} |} in
  Forall pnr_shape
    (tickets_of (session [(ProcessBooking host, alice); (RetrieveTickets, alice);
                          (ProcessBooking host, alice)] initial_world) "alice").
Proof.
  intros host alice. apply session_pnr_shape.
  repeat constructor; vm_compute; discriminate.
Defined.

(** X13. Over any sequence of calls the number of tickets of a user grows
    by exactly the number of confirmed bookings made for that user: no
    other call, and no booking of another user, adds or removes a record. *)
Theorem session_ticket_count (calls : list (Call * Tracker)) (w : World) (user : string) :
  length (tickets_of (session calls w) user) =
  length (tickets_of w user) + bookings_by user calls.
Proof.
  unfold bookings_by. revert w.
  induction calls as [|[call tracker] calls IH]; intros w; cbn [session List.filter].
  - cbn. lia.
  - rewrite IH, perform_count.
    destruct (books_for user (call, tracker)); cbn [length]; lia.
Qed.

(** X14. The processor does not look for an existing PNR: two confirmed
    bookings of one sender whose hosts draw the same number are both
    stored, next to each other, under the same PNR. *)
Theorem duplicate_pnr_stored
    (host1 host2 : Host) (tracker1 tracker2 : Tracker) (w : World)
    (Hintent1 : intent_name tracker1 = Some "affirm")
    (Hintent2 : intent_name tracker2 = Some "affirm")
    (Hsame : sender_id tracker2 = sender_id tracker1)
    (Hdraw : randint host2 1000000000 9999999999 = randint host1 1000000000 9999999999) :
  let w2 := session [(ProcessBooking host1, tracker1); (ProcessBooking host2, tracker2)] w in
  exists first second : Ticket.t,
    tickets_of w2 (sender_id tracker1) =
      tickets_of w (sender_id tracker1) ++ [first; second] /\
    Ticket.pnr first = Ticket.pnr second.
Proof.
  intros w2. subst w2. cbn [session perform].
  rewrite (process_booking_affirm host1 tracker1 w Hintent1). cbn [snd].
  rewrite (process_booking_affirm host2 tracker2 _ Hintent2). cbn [snd TICKET_DB].
  exists (committed_ticket host1 tracker1), (committed_ticket host2 tracker2).
  unfold tickets_of. cbn [TICKET_DB].
  rewrite Hsame, !lookup_insert_eq. cbn [default from_option id].
  split; [by rewrite <- app_assoc |].
  unfold committed_ticket. cbn [Ticket.pnr]. by rewrite Hdraw.
Qed.

Lemma duplicate_pnr_stored_witness :
  let host := {| randint := fun lo hi => lo; strftime_now := "2024-06-01 10:00:00" |} in
  let alice := {| sender_id := "alice"; slots := ∅;
                  latest_message := {[ "intent" := {[ "name" := "affirm" ]} ]} |} in
  exists first second : Ticket.t,
    tickets_of (session [(ProcessBooking host, alice); (ProcessBooking host, alice)]
                  initial_world) "alice" =
      tickets_of initial_world "alice" ++ [first; second] /\
    Ticket.pnr first = Ticket.pnr second.
Proof.
  intros host alice.
  apply (duplicate_pnr_stored host host alice alice initial_world); reflexivity.
Defined.

(** X15. A call reads and writes the entry of its own sender only: the
    entry of every other user is the same before and after, whatever the
    call. *)
Theorem perform_only_sender
    (call : Call) (tracker : Tracker) (w : World) (user : string)
    (Hother : user <> sender_id tracker) :
  TICKET_DB (perform call tracker w) !! user = TICKET_DB w !! user.
Proof.
  destruct (perform_store call tracker w) as [E | [(host & -> & E) | (stored & Hs & Hne & E)]];
    rewrite E; [done | |]; by rewrite lookup_insert_ne.
Qed.

Lemma perform_only_sender_witness :
  let host := {| randint := fun lo hi => lo; strftime_now := "2024-06-01 10:00:00" |} in
  let alice := {| sender_id := "alice"; slots := ∅;
                  latest_message := {[ "intent" := {[ "name" := "affirm" ]} ]} |} in
  let w := {| messages := []; TICKET_DB := {[ "bob" := [] ]} |} in
  TICKET_DB (perform (ProcessBooking host) alice w) !! "bob" = TICKET_DB w !! "bob".
Proof.
  intros host alice w.
  apply (perform_only_sender (ProcessBooking host) alice w "bob").
  vm_compute. discriminate.
Defined.

(** ** Order of records with equal stamps, and the date shown *)

Section StableSort.
Context {A : Type} (key : A -> string).

Lemma insert_desc_filter (k : string) (x : A) (l : list A) :
  filter (fun y => key y = k) (insert_desc key x l) =
  filter (fun y => key y = k) (x :: l).
Proof.
  induction l as [|y l IH]; [done |]. cbn [insert_desc].
  destruct (String.ltb (key x) (key y)) eqn:E; [| done].
  apply ltb_true_le in E as [_ Hne].
  rewrite (filter_cons _ y), IH, !(filter_cons _ x), (filter_cons _ y).
  repeat case_decide; congruence.
Qed.

Lemma sort_desc_filter (k : string) (l : list A) :
  filter (fun y => key y = k) (sort_desc key l) = filter (fun y => key y = k) l.
Proof.
  induction l as [|x l IH]; [done |]. cbn [sort_desc foldr].
  fold (sort_desc key l). rewrite insert_desc_filter, !filter_cons, IH. done.
Qed.

End StableSort.

(** X16. Retrieval keeps the stored order among records that carry the same
    booking stamp: for every stamp, the records of that stamp appear in the
    store after the call in the order they had before it. *)
Theorem retrieve_keeps_order_of_equal_stamps
    (tracker : Tracker) (w : World) (user stamp : string) :
  filter (fun ticket => Ticket.booked_on ticket = stamp)
    (tickets_of (ActionRetrieveTickets_run tracker w).2 user) =
  filter (fun ticket => Ticket.booked_on ticket = stamp) (tickets_of w user).
Proof.
  destruct (TICKET_DB w !! sender_id tracker) as [stored|] eqn:E;
    [destruct (decide (stored = [])) as [->|Hne] |].
  - by rewrite (retrieve_empty tracker w) by by rewrite E.
  - rewrite (retrieve_nonempty tracker w stored E Hne).
    unfold tickets_of. cbn [snd TICKET_DB].
    destruct (decide (user = sender_id tracker)) as [->|Hu].
    + rewrite lookup_insert_eq, E. cbn. apply sort_desc_filter.
    + by rewrite lookup_insert_ne.
  - by rewrite (retrieve_empty tracker w) by by rewrite E.
Qed.

Section DatePart.

Lemma no_blank_cons (c : ascii) (s : string) :
  PyStr.contains " " (String c s) = false ->
  c <> " "%char /\ PyStr.contains " " s = false.
Proof.
  cbn [PyStr.contains PyStr.startswith]. intros H.
  apply orb_false_iff in H as [H1 H2]. split; [| exact H2].
  intros ->. by destruct (decide (" "%char = " "%char)).
Qed.

Lemma until_space_stamp (date rest : string) :
  PyStr.contains " " date = false ->
  until_space (date +:+ " " +:+ rest) = date /\ until_space date = date.
Proof.
  induction date as [|c date IH]; intros H; [done |].
  apply no_blank_cons in H as [Hc H]. destruct (IH H) as [IH1 IH2].
  rewrite append_cons. cbn [until_space].
  destruct (decide (c = " "%char)); [done |]. by rewrite IH1, IH2.
Qed.

End DatePart.

(** X17. The date shown for a ticket is the part of its stamp in front of
    the first blank: for a stamp made of a date without blanks, one blank,
    and a time, it is the date; a stamp without any blank is shown whole. *)
Theorem date_part_of_stamp (date time : string)
    (Hdate : PyStr.contains " " date = false) :
  date_part (date +:+ " " +:+ time) = date /\ date_part date = date.
Proof.
  rewrite !date_part_until_space. by apply until_space_stamp.
Qed.

Lemma date_part_of_stamp_witness :
  date_part ("2024-05-06" +:+ " " +:+ "07:08:09") = "2024-05-06" /\
  date_part "2024-05-06" = "2024-05-06".
Proof.
  apply (date_part_of_stamp "2024-05-06" "07:08:09"). reflexivity.
Defined.

(** ** Messages *)

Section MessageFacts.
Implicit Types (tracker : Tracker) (w : World).

Lemma append_empty_r (s : string) : s +:+ EmptyString = s.
Proof. induction s as [|c s IH]; [done |]. rewrite append_cons. by f_equal. Qed.

Lemma retrieve_one_message tracker w :
  exists text, messages (ActionRetrieveTickets_run tracker w).2 = messages w ++ [text].
Proof.
  destruct (TICKET_DB w !! sender_id tracker) as [stored|] eqn:E;
    [destruct (decide (stored = [])) as [->|Hne] |].
  - rewrite (retrieve_empty tracker w) by by rewrite E. by eexists.
  - rewrite (retrieve_nonempty tracker w stored E Hne). by eexists.
  - rewrite (retrieve_empty tracker w) by by rewrite E. by eexists.
Qed.

Lemma perform_messages (call : Call) tracker w :
  exists new, messages (perform call tracker w) = messages w ++ new /\ length new <= 1.
Proof.
  assert (forall text : string,
             exists new, messages w ++ [text] = messages w ++ new /\ length new <= 1)
    as Hone by (intros text; exists [text]; split; [done | cbn; lia]).
  assert (exists new, messages w = messages w ++ new /\ length new <= 1)
    as Hnone by (exists []; split; [by rewrite app_nil_r | cbn; lia]).
  destruct call as [v|v|v| |host|]; cbn [perform].
  - unfold validate_source. destruct (is_valid_station v); cbn; [exact Hnone | apply Hone].
  - unfold validate_destination.
    destruct (is_valid_station v); [destruct (same_station _ v) |]; cbn;
      (exact Hnone || apply Hone).
  - unfold validate_payment_method.
    destruct (is_valid_payment v); cbn; [exact Hnone | apply Hone].
  - apply Hone.
  - destruct (decide (intent_name tracker = Some "affirm")) as [Hi|Hi].
    + rewrite (process_booking_affirm host tracker w Hi). apply Hone.
    + rewrite (process_booking_other host tracker w Hi). apply Hone.
  - destruct (retrieve_one_message tracker w) as [text Ht].
    rewrite Ht. apply Hone.
Qed.

Lemma join_occurs (sep x : string) (parts : list string) :
  x ∈ parts -> occurs_in x (PyStr.join sep parts).
Proof.
  unfold PyStr.join. induction parts as [|y parts IH]; intros Hin.
  - by apply elem_of_nil in Hin.
  - apply elem_of_cons in Hin as [->|Hin].
    + destruct parts as [|z parts]; cbn [String.concat].
      * exists EmptyString, EmptyString. by rewrite append_empty_r.
      * by exists EmptyString, (sep +:+ String.concat sep (z :: parts)).
    + destruct parts as [|z parts]; [by apply elem_of_nil in Hin |].
      cbn [String.concat]. fold (String.concat sep (z :: parts)).
      destruct (IH Hin) as (before & after & E). unfold String.concat in E.
      exists (y +:+ sep +:+ before), after.
      rewrite !append_assoc. f_equal. f_equal. exact E.
Qed.

End MessageFacts.

(** X18. Messages are only ever added at the end, at most one per call:
    after any sequence of calls the earlier messages are still there,
    followed by no more new messages than there were calls. *)
Theorem session_messages_grow (calls : list (Call * Tracker)) (w : World) :
  exists new : list string,
    messages (session calls w) = messages w ++ new /\ length new <= length calls.
Proof.
  revert w. induction calls as [|[call tracker] calls IH]; intros w; cbn [session].
  - exists []. split; [by rewrite app_nil_r | done].
  - destruct (IH (perform call tracker w)) as (new & E & Hlen).
    destruct (perform_messages call tracker w) as (one & E1 & Hone).
    exists (one ++ new). rewrite E, E1, <- app_assoc. split; [done |].
    rewrite length_app. cbn. lia.
Qed.

(** X19. The success message of a confirmed booking shows what was stored:
    it is the one message sent, and it carries the PNR, the route and the
    payment method of the record now last in the sender's sequence. *)
Theorem booking_message_shows_stored_ticket
    (host : Host) (tracker : Tracker) (w : World)
    (Hintent : intent_name tracker = Some "affirm") :
  let result := ActionProcessBooking_run host tracker w in
  exists (ticket : Ticket.t) (text : string),
    last (tickets_of result.2 (sender_id tracker)) = Some ticket /\
    messages result.2 = messages w ++ [text] /\
    occurs_in ("**PNR:** " +:+ Ticket.pnr ticket +:+ PyStr.nl) text /\
    occurs_in ("**Route:** " +:+ PyStr.fmt (Ticket.source ticket) +:+ " to " +:+
               PyStr.fmt (Ticket.destination ticket) +:+ PyStr.nl) text /\
    occurs_in ("**Payment Method:** " +:+ PyStr.fmt (Ticket.payment ticket) +:+ PyStr.nl) text.
Proof.
  intros result. subst result.
  rewrite (process_booking_affirm host tracker w Hintent).
  exists (committed_ticket host tracker). eexists.
  unfold tickets_of. cbn [snd TICKET_DB messages].
  rewrite lookup_insert_eq. cbn [default from_option id].
  split; [apply last_snoc |]. split; [reflexivity |].
  unfold success_message, committed_ticket.
  cbn [Ticket.pnr Ticket.source Ticket.destination Ticket.payment].
  set (pnr := PyStr.str _).
  repeat split.
  - eexists ("**Booking Successful!** Your reserved ticket is confirmed." +:+
             PyStr.nl +:+ PyStr.nl), _.
    rewrite !append_assoc. reflexivity.
  - eexists ("**Booking Successful!** Your reserved ticket is confirmed." +:+
             PyStr.nl +:+ PyStr.nl +:+ "**PNR:** " +:+ pnr +:+ PyStr.nl), _.
    rewrite !append_assoc. reflexivity.
  - eexists ("**Booking Successful!** Your reserved ticket is confirmed." +:+
             PyStr.nl +:+ PyStr.nl +:+ "**PNR:** " +:+ pnr +:+ PyStr.nl +:+
             "**Route:** " +:+ PyStr.fmt (get_slot tracker "source") +:+ " to " +:+
             PyStr.fmt (get_slot tracker "destination") +:+ PyStr.nl), EmptyString.
    rewrite !append_assoc, append_empty_r. reflexivity.
Qed.

Lemma booking_message_shows_stored_ticket_witness :
  let host := {| randint := fun lo hi => hi; strftime_now := "2024-05-06 07:08:09" |} in
  let tracker := {| sender_id := "alice";
                    slots := {[ "source" := "Paris"; "destination" := "Berlin" ]};
                    latest_message := {[ "intent" := {[ "name" := "affirm" ]} ]} |} in
  exists (ticket : Ticket.t) (text : string),
    last (tickets_of (ActionProcessBooking_run host tracker initial_world).2 "alice") =
      Some ticket /\
    messages (ActionProcessBooking_run host tracker initial_world).2 = [] ++ [text] /\
    occurs_in ("**PNR:** " +:+ Ticket.pnr ticket +:+ PyStr.nl) text.
Proof.
  intros host tracker.
  destruct (booking_message_shows_stored_ticket host tracker initial_world eq_refl)
    as (ticket & text & H1 & H2 & H3 & _).
  exists ticket, text. split; [exact H1 |]. split; [exact H2 | exact H3].
Defined.

(** X20. Retrieval lists every ticket the sender holds: for each of them
    the one message sent contains its block body, that is its PNR line, its
    route line and its booking date. *)
Theorem retrieve_lists_every_ticket
    (tracker : Tracker) (w : World) (ticket : Ticket.t)
    (Hin : ticket ∈ tickets_of w (sender_id tracker)) :
  exists text : string,
    messages (ActionRetrieveTickets_run tracker w).2 = messages w ++ [text] /\
    occurs_in (block_body ticket) text.
Proof.
  unfold tickets_of in Hin.
  destruct (TICKET_DB w !! sender_id tracker) as [stored|] eqn:E;
    [| by apply elem_of_nil in Hin].
  cbn in Hin.
  assert (stored <> []) as Hne by (intros ->; by apply elem_of_nil in Hin).
  rewrite (retrieve_nonempty tracker w stored E Hne). cbn [snd messages].
  eexists. split; [reflexivity |].
  rewrite <- (sort_desc_Permutation Ticket.booked_on stored) in Hin.
  apply list_elem_of_lookup in Hin as [i Hi].
  apply (occurs_in_trans _ (ticket_block i ticket)).
  - unfold ticket_block, block_body.
    eexists (PyStr.nl +:+ "--- Ticket " +:+ PyStr.str (Z.of_nat i + 1) +:+ " ---" +:+ PyStr.nl),
      EmptyString.
    rewrite !append_assoc, append_empty_r. reflexivity.
  - apply join_occurs. apply elem_of_cons. right.
    apply list_elem_of_lookup. exists i. by rewrite list_lookup_imap, Hi.
Qed.

Lemma retrieve_lists_every_ticket_witness :
  let older := Ticket.mk "1111111111" (Some "Paris") (Some "Berlin") (Some "UPI")
                 "2024-05-06 07:08:09" "CONFIRMED" in
  let newer := Ticket.mk "2222222222" (Some "Berlin") (Some "Paris") (Some "card")
                 "2024-06-01 10:00:00" "CONFIRMED" in
  let tracker := {| sender_id := "alice"; slots := ∅; latest_message := ∅ |} in
  let w := {| messages := []; TICKET_DB := {[ "alice" := [older; newer] ]} |} in
  exists text : string,
    messages (ActionRetrieveTickets_run tracker w).2 = messages w ++ [text] /\
    occurs_in (block_body older) text.
Proof.
  intros older newer tracker w.
  apply (retrieve_lists_every_ticket tracker w older).
  vm_compute. apply list_elem_of_here.
Defined.

(** ** Numbering of the ticket blocks *)

Section Numbering.
Local Open Scope Z_scope.

Lemma decimal_value_digit (acc d : Z) :
  0 <= d < 10 -> decimal_value_from acc (PyStr.digit d) = 10 * acc + d.
Proof.
  intros Hd. unfold PyStr.digit, PyStr.code. cbn [decimal_value_from].
  rewrite nat_ascii_embedding by lia. lia.
Qed.

Lemma decimal_value_snoc (acc : Z) (s : string) (d : Z) :
  0 <= d < 10 ->
  decimal_value_from acc (s +:+ PyStr.digit d) = 10 * decimal_value_from acc s + d.
Proof.
  intros Hd. revert acc. induction s as [|c s IH]; intros acc.
  - by apply decimal_value_digit.
  - rewrite append_cons. cbn [decimal_value_from]. apply IH.
Qed.

(** With fuel above the binary size of [n], [digits] writes [n] in full. *)
Lemma digits_value (fuel : nat) :
  forall n : Z,
    0 <= n -> Z.log2 n < Z.of_nat fuel ->
    decimal_value (PyStr.digits fuel n) = n /\
    PyStr.isdigit_all (PyStr.digits fuel n) = true.
Proof.
  unfold decimal_value.
  induction fuel as [|fuel IH]; intros n Hn Hfuel.
  - pose proof (Z.log2_nonneg n). lia.
  - cbn [PyStr.digits]. destruct (Z.ltb_spec n 10) as [Hlt|Hge].
    + split; [rewrite decimal_value_digit by lia; lia | by apply digit_shape].
    + assert (0 < n / 10) as Hq by (apply Z.div_str_pos; lia).
      assert (2 * (n / 10) <= n) as Hhalf.
      { pose proof (Z.mul_div_le n 10). lia. }
      assert (Z.log2 (n / 10) < Z.log2 n) as Hlog.
      { apply Z.log2_le_mono in Hhalf. rewrite Z.log2_double in Hhalf by lia. lia. }
      destruct (IH (n / 10)) as [Hv Hd]; [lia | lia |].
      pose proof (Z.mod_pos_bound n 10) as Hm.
      rewrite decimal_value_snoc, Hv, isdigit_all_append, Hd by lia.
      split.
      * pose proof (Z.div_mod n 10). lia.
      * by apply digit_shape; lia.
Qed.

Lemma str_value (n : Z) :
  0 <= n -> decimal_value (PyStr.str n) = n /\ PyStr.isdigit_all (PyStr.str n) = true.
Proof.
  intros Hn. unfold PyStr.str. destruct (Z.ltb_spec n 0); [lia |].
  apply digits_value; [done |].
  pose proof (Z.log2_nonneg n). lia.
Qed.

End Numbering.

(** X21. The blocks of a retrieval are numbered from 1 in decimal, however
    many tickets there are: the block at index [i] of the enumeration is a
    heading whose number is a run of digits denoting [i + 1], followed by
    the block body of the ticket. *)
Theorem ticket_block_numbered (i : nat) (ticket : Ticket.t) :
  exists number : string,
    ticket_block i ticket =
      PyStr.nl +:+ "--- Ticket " +:+ number +:+ " ---" +:+ PyStr.nl +:+ block_body ticket /\
    PyStr.isdigit_all number = true /\
    decimal_value number = (Z.of_nat i + 1)%Z.
Proof.
  exists (PyStr.str (Z.of_nat i + 1)).
  destruct (str_value (Z.of_nat i + 1)) as [Hv Hd]; [lia |].
  split; [reflexivity |]. by split.
Qed.
